(** * Healthcare assistant front end (app.py): handlers of the web interface

    A shallow embedding of the event handlers defined inside
    [create_gradio_interface]: the recorder ([start_recording],
    [stop_recording]) and the request orchestrator ([process_audio],
    [process_text], [process_from_any_source]).

    The assistant object ([HealthcareAIAssistant], imported from [main]),
    the file system and the clock are not part of the file; they are taken
    as an interface over an abstract world. *)

From Stdlib Require Import String Ascii ZArith NArith List Bool Lia.
From Stdlib Require Import DecimalString DecimalZ.
Import ListNotations.
Local Open Scope string_scope.

(** ** Python values and the operations the handlers apply to them *)

Module Py.

Set Warnings "-register-all".

(** The values that cross the handlers: [None], strings, tuples and
    key-value documents.  A string is carried as its UTF-8 bytes; its
    characters are recovered by [chars] below. *)
Inductive value : Type :=
| None_
| Str (s : string)
| Tuple (items : list value)
| Dict (items : list (string * value)).

(** An instance of (a subclass of) [Exception], which is what the
    handlers' [except Exception] clauses catch: its class name and what
    [str(e)] gives. *)
Record exn : Type := Exn { exn_class : string; exn_str : string }.

(** The outcome of evaluating an expression or running a call, [X]
    being what it can raise.  The operations below, the recorder and the
    worker raise instances of [Exception]: their outcome is [outcome]. *)
Inductive outcome_of (X A : Type) : Type :=
| Return (a : A)
| Raise (e : X).
Set Warnings "register-all".
Arguments Return {X A} a.
Arguments Raise {X A} e.
Abbreviation outcome := (outcome_of exn).

Definition dquote : string := String (ascii_of_nat 34) "".
Definition squote : string := String (ascii_of_nat 39) "".
Definition newline : string := String (ascii_of_nat 10) "".

Definition type_name (v : value) : string :=
  match v with
  | None_ => "NoneType"
  | Str _ => "str"
  | Tuple _ => "tuple"
  | Dict _ => "dict"
  end.

Definition TypeError (msg : string) : exn := Exn "TypeError" msg.
Definition ValueError (msg : string) : exn := Exn "ValueError" msg.
Definition IndexError (msg : string) : exn := Exn "IndexError" msg.
Definition AttributeError (msg : string) : exn := Exn "AttributeError" msg.

(** Truth value of an object, as tested by [if x], [not x], [x and y]. *)
Definition truthy (v : value) : bool :=
  match v with
  | None_ => false
  | Str s => negb (String.eqb s "")
  | Tuple l => match l with [] => false | _ => true end
  | Dict l => match l with [] => false | _ => true end
  end.

(** *** Characters of a string

    A byte [10xxxxxx] continues the character begun before it. *)
Definition is_continuation (c : ascii) : bool :=
  let n := N_of_ascii c in ((128 <=? n) && (n <? 192))%N.

Fixpoint split_chars (s : string) : string * list string :=
  match s with
  | EmptyString => (EmptyString, [])
  | String c rest =>
      let (k, cs) := split_chars rest in
      if is_continuation c then (String c k, cs)
      else (EmptyString, String c k :: cs)
  end.

Definition chars (s : string) : list string :=
  let (k, cs) := split_chars s in
  match k with EmptyString => cs | _ => k :: cs end.

Definition join_chars (cs : list string) : string :=
  fold_right String.append EmptyString cs.

(** The code point a character encodes. *)
Definition code_point (ch : string) : N :=
  match ch with
  | EmptyString => 0%N
  | String c k =>
      let n := N_of_ascii c in
      let lead :=
        if (n <? 128)%N then n
        else if (n <? 224)%N then N.land n 31
        else if (n <? 240)%N then N.land n 15
        else N.land n 7 in
      fold_left (fun acc b => (acc * 64 + N.land (N_of_ascii b) 63)%N)
                (list_ascii_of_string k) lead
  end.

(** *** Subscripts, attributes, unpacking and [+] *)

(** [v[:n]].  The message for a document is that of CPython up to 3.11;
    later versions raise a [KeyError] there, caught alike. *)
Definition slice_to (n : nat) (v : value) : outcome value :=
  match v with
  | Str s => Return (Str (join_chars (firstn n (chars s))))
  | Tuple l => Return (Tuple (firstn n l))
  | None_ => Raise (TypeError "'NoneType' object is not subscriptable")
  | Dict _ => Raise (TypeError "unhashable type: 'slice'")
  end.

(** [v[0]] for a tuple [v] *)
Definition tuple_first (l : list value) : outcome value :=
  match l with
  | x :: _ => Return x
  | [] => Raise (IndexError "tuple index out of range")
  end.

(** [v.startswith(p)] for a string literal [p] *)
Definition startswith (v : value) (p : string) : outcome bool :=
  match v with
  | Str s => Return (String.prefix p s)
  | _ => Raise (AttributeError
                  (squote ++ type_name v ++ "' object has no attribute 'startswith'"))
  end.

(** [a, b = v] *)
Definition unpack_list (l : list value) : outcome (value * value) :=
  match l with
  | [] => Raise (ValueError "not enough values to unpack (expected 2, got 0)")
  | [_] => Raise (ValueError "not enough values to unpack (expected 2, got 1)")
  | [a; b] => Return (a, b)
  | _ => Raise (ValueError "too many values to unpack (expected 2)")
  end.

Definition unpack2 (v : value) : outcome (value * value) :=
  match v with
  | None_ => Raise (TypeError "cannot unpack non-iterable NoneType object")
  | Str s => unpack_list (map Str (chars s))
  | Tuple l => unpack_list l
  | Dict l => unpack_list (map (fun kv => Str (fst kv)) l)
  end.

(** [a + b] *)
Definition add (a b : value) : outcome value :=
  match a, b with
  | Str x, Str y => Return (Str (x ++ y))
  | Str _, _ =>
      Raise (TypeError ("can only concatenate str (not " ++ dquote ++ type_name b
                          ++ dquote ++ ") to str"))
  | Tuple x, Tuple y => Return (Tuple (x ++ y))
  | Tuple _, _ =>
      Raise (TypeError ("can only concatenate tuple (not " ++ dquote ++ type_name b
                          ++ dquote ++ ") to tuple"))
  | _, _ =>
      Raise (TypeError ("unsupported operand type(s) for +: '" ++ type_name a
                          ++ "' and '" ++ type_name b ++ squote))
  end.

(** *** [json.dumps] of a one-entry document with a string value

    Default options: [ensure_ascii], separators [", "] and [": "]. *)
Definition hex_digit (n : N) : ascii :=
  if (n <? 10)%N then ascii_of_N (48 + n) else ascii_of_N (87 + n).

Definition hex4 (n : N) : string :=
  String (hex_digit ((n / 4096) mod 16))
    (String (hex_digit ((n / 256) mod 16))
       (String (hex_digit ((n / 16) mod 16))
          (String (hex_digit (n mod 16)) EmptyString))).

Definition json_escape_char (ch : string) : string :=
  let n := code_point ch in
  if (n =? 34)%N then "\" ++ dquote
  else if (n =? 92)%N then "\\"
  else if (n =? 8)%N then "\b"
  else if (n =? 12)%N then "\f"
  else if (n =? 10)%N then "\n"
  else if (n =? 13)%N then "\r"
  else if (n =? 9)%N then "\t"
  else if ((32 <=? n) && (n <=? 126))%N then ch
  else if (n <? 65536)%N then "\u" ++ hex4 n
  else
    let m := (n - 65536)%N in
    "\u" ++ hex4 (N.lor 55296 (N.land (N.shiftr m 10) 1023))
         ++ "\u" ++ hex4 (N.lor 56320 (N.land m 1023)).

Definition json_string (s : string) : string :=
  dquote ++ join_chars (map json_escape_char (chars s)) ++ dquote.

(** [json.dumps({key: s})] *)
Definition json_dumps1 (key s : string) : string :=
  "{" ++ json_string key ++ ": " ++ json_string s ++ "}".

(** [str(n)] for an integer *)
Definition str_of_int (z : Z) : string := NilZero.string_of_int (Z.to_int z).

(** [os.path.join(a, b)] on a POSIX system *)
Definition os_path_join (a b : string) : string :=
  if String.prefix "/" b then b
  else if String.eqb a "" then b
  else if String.eqb (substring (String.length a - 1) 1 a) "/" then a ++ b
  else a ++ "/" ++ b.

End Py.

Import Py.

(** ** The request orchestrator *)

(** What a handler does that is visible outside it: the progress
    notifications ([gr.Info]), the calls of the assistant's methods with
    their arguments, and the reading of the clock with what it gave. *)
Inductive event : Type :=
| Info (message : string)
| Transcribe (audio_path : string) (language : value)
| Analyze (text language : value)
| GenerateEmr (text language : value)
| GeneratePrescription (medical_notes language : value)
| TextToSpeech (text : value) (output_path : string) (language : value)
| Time (seconds : Z).

(** The stages of the pipeline are the calls of the assistant. *)
Definition is_stage (ev : event) : bool :=
  match ev with
  | Info _ | Time _ => false
  | _ => true
  end.

Definition is_transcribe (ev : event) : bool :=
  match ev with Transcribe _ _ => true | _ => false end.

(** The language argument of a stage. *)
Definition stage_language (ev : event) : option value :=
  match ev with
  | Transcribe _ l | Analyze _ l | GenerateEmr _ l
  | GeneratePrescription _ l | TextToSpeech _ _ l => Some l
  | Info _ | Time _ => None
  end.

(** What a collaborator can raise: an instance of [Exception], or an
    instance of a class outside it ([KeyboardInterrupt], [SystemExit],
    [GeneratorExit], or any other class derived from [BaseException]
    alone), given by its class name and what [str] gives. *)
Inductive raised : Type :=
| OfException (e : exn)
| Outside (class_name message : string).

Abbreviation completion := (outcome_of raised).

(** The collaborators: the assistant's five methods, [os.path.exists],
    [int(time.time())] and [tempfile.gettempdir()], over a world [W] they
    may read and change.  Any method may return any value or raise,
    from within [Exception] or from outside it.
    The clock is read in whole seconds, the only use made of it.  The
    log lines write nothing a handler reads back: only the evaluation of
    their arguments is kept, where it can raise. *)
Record Env (W : Type) : Type := {
  transcribe_audio : string -> value -> W -> completion value * W;
  analyze_text : value -> value -> W -> completion value * W;
  generate_emr_content : value -> value -> W -> completion value * W;
  generate_prescription : value -> value -> W -> completion value * W;
  text_to_speech_with_gtts : value -> string -> value -> W -> completion value * W;
  os_path_exists : string -> W -> bool;
  time_seconds : W -> Z * W;
  gettempdir : string
}.
Arguments transcribe_audio {W}.
Arguments analyze_text {W}.
Arguments generate_emr_content {W}.
Arguments generate_prescription {W}.
Arguments text_to_speech_with_gtts {W}.
Arguments os_path_exists {W}.
Arguments time_seconds {W}.
Arguments gettempdir {W}.

(** The six values a processing handler gives to the presenter. *)
Record result : Type := Result {
  transcript : value;
  medical_notes : value;
  emr_content : value;
  prescription_text : value;
  prescription_explanation : value;
  tts_output_path : option string
}.

(** A computation over the world: it returns or raises, leaves a world
    and the events it produced, oldest first. *)
Definition M (W A : Type) : Type := W -> completion A * W * list event.

Definition ret {W A} (a : A) : M W A := fun w => (Return a, w, []).

Definition bind {W A B} (m : M W A) (k : A -> M W B) : M W B :=
  fun w =>
    match m w with
    | (Return a, w1, t1) =>
        let '(r, w2, t2) := k a w1 in (r, w2, (t1 ++ t2)%list)
    | (Raise e, w1, t1) => (Raise e, w1, t1)
    end.

(** [try: body except Exception as e: handler(e)]: the clause takes the
    instances of [Exception]; anything else goes on to the caller. *)
Definition try_except {W A} (body : M W A) (handler : exn -> M W A) : M W A :=
  fun w =>
    match body w with
    | (Return a, w1, t1) => (Return a, w1, t1)
    | (Raise (OfException e), w1, t1) =>
        let '(r, w2, t2) := handler e w1 in (r, w2, (t1 ++ t2)%list)
    | (Raise (Outside class_name message), w1, t1) =>
        (Raise (Outside class_name message), w1, t1)
    end.

(** The value of an expression that may raise. *)
Definition eval {W A} (o : outcome A) : M W A :=
  fun w =>
    match o with
    | Return a => (Return a, w, [])
    | Raise e => (Raise (OfException e), w, [])
    end.

(** A call of a collaborator, recorded when it is made. *)
Definition call {W A} (ev : event) (f : W -> completion A * W) : M W A :=
  fun w => let (r, w1) := f w in (r, w1, [ev]).

Definition gr_Info {W} (message : string) : M W unit :=
  fun w => (Return tt, w, [Info message]).

Definition exists_ {W} (E : Env W) (path : string) : M W bool :=
  fun w => (Return (os_path_exists E path w), w, []).

Definition int_time {W} (E : Env W) : M W Z :=
  fun w => let (t, w1) := time_seconds E w in (Return t, w1, [Time t]).

Declare Scope py_scope.
Delimit Scope py_scope with py.
Notation "x <- m ;; k" := (bind m (fun x => k))
  (at level 61, m at next level, right associativity) : py_scope.
Notation "' pat <- m ;; k" := (bind m (fun x => match x with pat => k end))
  (at level 61, pat pattern, m at next level, right associativity) : py_scope.
Notation "m ;; k" := (bind m (fun _ => k))
  (at level 61, right associativity) : py_scope.
Local Open Scope py_scope.

(** [language_tuple[0] if isinstance(language_tuple, tuple) else "en"] *)
Definition language_code (language_tuple : value) : outcome value :=
  match language_tuple with
  | Tuple items => tuple_first items
  | _ => Return (Str "en")
  end.

(** [json.dumps({"error": message})] as a field of the result *)
Definition error_document (message : string) : value :=
  Str (json_dumps1 "error" message).

(** The name of the synthesized audio file:
    [os.path.join(tempfile.gettempdir(), f"<stem>{int(time.time())}.mp3")] *)
Definition audio_file (dir stem : string) (seconds : Z) : string :=
  os_path_join dir (stem ++ str_of_int seconds ++ ".mp3").

Section Handlers.

Context {W : Type} (E : Env W).

(** Stages 2 to 5, shared word for word by both handlers but for the
    stem of the audio file name. *)
Definition generate (stem : string) (text language : value) : M W result :=
  gr_Info "Generating medical notes..." ;;
  medical_notes <- call (Analyze text language) (analyze_text E text language) ;;
  gr_Info "Creating EMR content..." ;;
  emr_content <- call (GenerateEmr text language)
                      (generate_emr_content E text language) ;;
  gr_Info "Generating prescription..." ;;
  pair <- call (GeneratePrescription medical_notes language)
               (generate_prescription E medical_notes language) ;;
  '(prescription_text, prescription_explanation) <- eval (unpack2 pair) ;;
  gr_Info "Creating audio response..." ;;
  seconds <- int_time E ;;
  let tts_output_path := audio_file (gettempdir E) stem seconds in
  notes_sep <- eval (add medical_notes (Str (newline ++ newline))) ;;
  notes_and_explanation <- eval (add notes_sep prescription_explanation) ;;
  call (TextToSpeech notes_and_explanation tts_output_path language)
       (text_to_speech_with_gtts E notes_and_explanation tts_output_path language) ;;
  gr_Info "Processing complete!" ;;
  ret (Result text medical_notes emr_content prescription_text
              prescription_explanation (Some tts_output_path)).

(** [transcription and not transcription.startswith("Error")] *)
Definition usable (transcription : value) : M W bool :=
  if truthy transcription then
    is_error <- eval (startswith transcription "Error") ;;
    ret (negb is_error)
  else ret false.

Definition process_audio (audio_path : option string) (language_tuple : value)
  : M W result :=
  try_except
    (match audio_path with
     | None =>
         ret (Result (Str "Please record or upload audio first.") (Str "")
                     (Str "{}") (Str "") (Str "") None)
     | Some path =>
         if String.eqb path "" then
           ret (Result (Str "Please record or upload audio first.") (Str "")
                       (Str "{}") (Str "") (Str "") None)
         else
           gr_Info "Processing audio... Please wait." ;;
           found <- exists_ E path ;;
           if negb found then
             ret (Result (Str ("Audio file not found at " ++ path)) (Str "")
                         (error_document "File not found") (Str "") (Str "") None)
           else
             language <- eval (language_code language_tuple) ;;
             gr_Info "Transcribing audio..." ;;
             transcription <- call (Transcribe path language)
                                   (transcribe_audio E path language) ;;
             (* the argument of the log line, [transcription[:100]] *)
             eval (slice_to 100 transcription) ;;
             ok <- usable transcription ;;
             if ok then generate "medical_notes_audio_" transcription language
             else
               ret (Result transcription (Str "")
                           (error_document "Transcription failed")
                           (Str "") (Str "") None)
     end)
    (fun e =>
       ret (Result (Str ("Error processing audio: " ++ exn_str e)) (Str "")
                   (error_document (exn_str e)) (Str "") (Str "") None)).

Definition process_text (text_input : string) (language_tuple : value)
  : M W result :=
  try_except
    (if String.eqb text_input "" then
       ret (Result (Str "") (Str "") (Str "{}") (Str "") (Str "") None)
     else
       gr_Info "Processing your text input... Please wait." ;;
       language <- eval (language_code language_tuple) ;;
       generate "text_notes_audio_" (Str text_input) language)
    (fun e =>
       ret (Result (Str text_input) (Str ("Error processing text: " ++ exn_str e))
                   (error_document (exn_str e)) (Str "") (Str "") None)).

(** A path widget holds a path when it is neither [None] nor empty. *)
Definition present (path : option string) : bool :=
  match path with
  | Some p => negb (String.eqb p "")
  | None => false
  end.

Definition process_from_any_source
    (recorded_path uploaded_path : option string) (language_tuple : value)
  : M W result :=
  let path_to_use := if present uploaded_path then uploaded_path else recorded_path in
  if negb (present path_to_use) then
    ret (Result (Str "No audio available. Please record or upload first.") (Str "")
                (error_document "No audio available") (Str "") (Str "") None)
  else process_audio path_to_use language_tuple.

End Handlers.

(** ** The recorder *)

Module Recorder.

(** A handle on a [threading.Thread]. *)
Definition thread : Type := nat.

(** The process-wide dictionary [recording_state]. *)
Record recording_state : Type := {
  is_recording : bool;
  audio_path : option string;
  frames : list string;
  recording_thread : option thread
}.

Definition initial_state : recording_state :=
  {| is_recording := false; audio_path := None; frames := [];
     recording_thread := None |}.

Definition set_is_recording (b : bool) (st : recording_state) : recording_state :=
  {| is_recording := b; audio_path := audio_path st; frames := frames st;
     recording_thread := recording_thread st |}.

Definition set_audio_path (p : option string) (st : recording_state)
  : recording_state :=
  {| is_recording := is_recording st; audio_path := p; frames := frames st;
     recording_thread := recording_thread st |}.

Definition set_recording_thread (t : option thread) (st : recording_state)
  : recording_state :=
  {| is_recording := is_recording st; audio_path := audio_path st;
     frames := frames st; recording_thread := t |}.

(** What the handlers ask of the system: a named temporary file that is
    kept, threads running [record_audio] on a file name, and the file
    system.  [join] is the bounded wait [join(timeout=3.0)]: what the
    worker has done by its end shows in the world it leaves.  The
    worker's own writes to the dictionary (its list of frames) are not
    followed: no handler reads them. *)
Record Device (W : Type) : Type := {
  NamedTemporaryFile : string -> W -> outcome string * W;
  Thread : string -> W -> thread * W;
  start : thread -> W -> outcome unit * W;
  is_alive : thread -> W -> bool;
  join : thread -> W -> W;
  exists_ : string -> W -> bool;
  getsize : string -> W -> outcome N
}.
Arguments NamedTemporaryFile {W}.
Arguments Thread {W}.
Arguments start {W}.
Arguments is_alive {W}.
Arguments join {W}.
Arguments exists_ {W}.
Arguments getsize {W}.

(** The three outputs of a recorder handler: the button label, the
    status message and the audio path. *)
Definition outputs : Type := string * string * option string.

(** The button labels, as the bytes of
    U+1F399 U+FE0F " Record" and U+23F9 U+FE0F " Stop". *)
Definition record_label : string := "🎙️ Record".
Definition stop_label : string := "⏹️ Stop".

(** The size of the file the worker writes on leaving its loop: the
    44-byte header of a PCM wave file, then the frames joined. *)
Definition wave_size (frames : list string) : N :=
  44 + N.of_nat (String.length (join_chars frames)).

Section Handlers.

Context {W : Type} (D : Device W).

Definition start_recording (st : recording_state) (w : W)
  : outputs * recording_state * W :=
  match NamedTemporaryFile D ".wav" w with
  | (Raise e, w1) =>
      ((record_label, "Error starting recording: " ++ exn_str e, None), st, w1)
  | (Return audio_filepath, w1) =>
      let st1 := set_is_recording true (set_audio_path (Some audio_filepath) st) in
      let (recording_thread, w2) := Thread D audio_filepath w1 in
      let st2 := set_recording_thread (Some recording_thread) st1 in
      match start D recording_thread w2 with
      | (Raise e, w3) =>
          ((record_label, "Error starting recording: " ++ exn_str e, None), st2, w3)
      | (Return _, w3) =>
          ((stop_label, "Recording in progress...", None), st2, w3)
      end
  end.

(** The world after the wait for the worker, if there is a live one. *)
Definition after_join (st : recording_state) (w : W) : W :=
  match recording_thread st with
  | Some t => if is_alive D t w then join D t w else w
  | None => w
  end.

(** [recording_state["audio_path"] and os.path.exists(...)] *)
Definition saved_file (st : recording_state) (w : W) : option string :=
  match audio_path st with
  | Some p => if negb (String.eqb p "") && exists_ D p w then Some p else None
  | None => None
  end.

Definition stop_recording (st : recording_state) (w : W)
  : outputs * recording_state * W :=
  let st1 := set_is_recording false st in
  let w1 := after_join st1 w in
  match saved_file st1 w1 with
  | Some p =>
      match getsize D p w1 with
      | Return file_size =>
          if (0 <? file_size)%N then
            ((record_label, "Recording complete.", Some p), st1, w1)
          else
            ((record_label,
              "Recording stopped but file is empty. Please try again.", None),
             st1, w1)
      | Raise e =>
          ((record_label, "Error stopping recording: " ++ exn_str e, None), st1, w1)
      end
  | None => ((record_label, "No recording was saved.", None), st1, w1)
  end.

End Handlers.

(** *** A studio

    A concrete system: files with their sizes, at most one worker, and
    the frames the worker has captured by the time it is joined.  The
    temporary file is created empty; the worker, once joined, has
    written its wave file. *)
Record studio : Type := {
  files : list (string * N);
  prepared : option string;
  running : option string
}.

Definition file_size (path : string) (w : studio) : option N :=
  option_map snd (find (fun f => String.eqb (fst f) path) (files w)).

Definition put_file (path : string) (size : N) (w : studio) : studio :=
  {| files := (path, size) :: files w; prepared := prepared w;
     running := running w |}.

Definition studio_device (captured : list string) : Device studio := {|
  NamedTemporaryFile := fun suffix w =>
    let name := "/tmp/tmp" ++ str_of_int (Z.of_nat (length (files w))) ++ suffix in
    (Return name, put_file name 0 w);
  Thread := fun path w =>
    (0, {| files := files w; prepared := Some path; running := running w |});
  start := fun _ w =>
    (Return tt, {| files := files w; prepared := None; running := prepared w |});
  is_alive := fun _ w => match running w with Some _ => true | None => false end;
  join := fun _ w =>
    match running w with
    | Some path =>
        {| files := (path, wave_size captured) :: files w;
           prepared := prepared w; running := None |}
    | None => w
    end;
  exists_ := fun path w =>
    match file_size path w with Some _ => true | None => false end;
  getsize := fun path w =>
    match file_size path w with
    | Some n => Return n
    | None => Raise (Exn "FileNotFoundError"
                         ("[Errno 2] No such file or directory: '" ++ path ++ "'"))
    end
|}.

Definition empty_studio : studio :=
  {| files := []; prepared := None; running := None |}.

End Recorder.

(** ** The capture worker *)

Module Capture.

(** The recording parameters: [CHANNELS], [RATE], [CHUNK], and the
    sample width [p.get_sample_size(FORMAT)] of [pyaudio.paInt16]. *)
Definition CHANNELS : N := 1.
Definition RATE : N := 44100.
Definition CHUNK : N := 1024.
Definition sample_size : N := 2.

(** A wave file: the parameters set on the writer and the frames
    written. *)
Record wave : Type := {
  nchannels : N;
  sampwidth : N;
  framerate : N;
  data : string
}.

(** How the audio device and the file system answer the worker: whether
    creating and opening the stream raises, what the read numbered [k]
    (from 0) gives, whether stopping and closing the stream raises, and
    whether writing the wave file raises. *)
Record device : Type := {
  on_open : option exn;
  on_read : nat -> outcome string;
  on_close : option exn;
  on_write : option exn
}.

Definition set_frames (f : list string) (st : Recorder.recording_state)
  : Recorder.recording_state :=
  {| Recorder.is_recording := Recorder.is_recording st;
     Recorder.audio_path := Recorder.audio_path st;
     Recorder.frames := f;
     Recorder.recording_thread := Recorder.recording_thread st |}.

(** The loop [while recording_state["is_recording"]: read, append].  The
    flag is lowered by another thread: [tests] lists what the successive
    tests of the flag read.  [None]: every listed test read the flag up
    and the loop has not ended. *)
Fixpoint capture (dev : device) (tests : list bool) (k : nat) (frames : list string)
  : option (outcome unit * list string) :=
  match tests with
  | [] => None
  | false :: _ => Some (Return tt, frames)
  | true :: rest =>
      match on_read dev k with
      | Return chunk => capture dev rest (S k) (frames ++ [chunk])
      | Raise e => Some (Raise e, frames)
      end
  end.

(** [record_audio(filename)], the body of the worker thread.  It gives
    what the call returns or raises, the dictionary as the worker leaves
    it (the flag as it last wrote or read it), and the wave file it
    completed, if any.  Nothing catches an exception here: the thread
    ends with it. *)
Definition record_audio (dev : device) (filename : string) (tests : list bool)
    (st : Recorder.recording_state)
  : option (outcome string * Recorder.recording_state * option (string * wave)) :=
  match on_open dev with
  | Some e => Some (Raise e, st, None)
  | None =>
      let st1 := Recorder.set_is_recording true (set_frames [] st) in
      match capture dev tests 0 [] with
      | None => None
      | Some (Raise e, frames) => Some (Raise e, set_frames frames st1, None)
      | Some (Return _, frames) =>
          let st2 := Recorder.set_is_recording false (set_frames frames st1) in
          match on_close dev with
          | Some e => Some (Raise e, st2, None)
          | None =>
              match on_write dev with
              | Some e => Some (Raise e, st2, None)
              | None =>
                  Some (Return filename, st2,
                        Some (filename,
                              {| nchannels := CHANNELS;
                                 sampwidth := sample_size;
                                 framerate := RATE;
                                 data := join_chars frames |}))
              end
          end
      end
  end.

(** A device that works and delivers the same chunk at every read. *)
Definition steady (chunk : string) : device :=
  {| on_open := None; on_read := fun _ => Return chunk;
     on_close := None; on_write := None |}.

(** A device whose read numbered [n] fails. *)
Definition failing_at (n : nat) (chunk : string) : device :=
  {| on_open := None;
     on_read := fun k => if Nat.eqb k n
                         then Raise (Exn "OSError" "[Errno -9988] Stream closed")
                         else Return chunk;
     on_close := None; on_write := None |}.

(** One read of [CHUNK] mono 16-bit sample frames of silence. *)
Definition silence : string :=
  string_of_list_ascii (repeat (ascii_of_nat 0) 2048).

End Capture.

(** A field of a result is empty when it is [None], an empty string,
    tuple or document, or the text of the empty document. *)
Definition empty_field (v : value) : bool :=
  match v with
  | Str s => String.eqb s "" || String.eqb s "{}"
  | _ => negb (truthy v)
  end.

(** The stages invoked in a trace. *)
Definition stages (t : list event) : list event := filter is_stage t.

(** ** A scripted assistant

    A concrete world for running the handlers: the world is the clock's
    whole second, which the handlers' own calls do not advance; one audio
    file exists; transcription gives [transcription]; the other stages
    succeed with fixed answers. *)
Definition scripted (transcription : completion value) : Env Z := {|
  transcribe_audio := fun _ _ w => (transcription, w);
  analyze_text := fun _ _ w => (Return (Str "Tension-type headache, 2 days."), w);
  generate_emr_content := fun _ _ w =>
    (Return (Dict [("chief_complaint", Str "headache")]), w);
  generate_prescription := fun _ _ w =>
    (Return (Tuple [Str "Paracetamol 500 mg"; Str "One tablet every 6 hours."]), w);
  text_to_speech_with_gtts := fun _ _ _ w => (Return None_, w);
  os_path_exists := fun path _ => String.eqb path "/tmp/visit.wav";
  time_seconds := fun w => (w, w);
  gettempdir := "/tmp"
|}.

Definition english : value := Tuple [Str "en"; Str "English"].

(** The same world with an assistant whose analysis raises. *)
Definition unavailable : Env Z := {|
  transcribe_audio := fun _ _ w => (Return (Str "Headache for two days."), w);
  analyze_text := fun _ _ w =>
    (Raise (OfException (Exn "RuntimeError" "model unavailable")), w);
  generate_emr_content := generate_emr_content (scripted (Return None_));
  generate_prescription := generate_prescription (scripted (Return None_));
  text_to_speech_with_gtts := text_to_speech_with_gtts (scripted (Return None_));
  os_path_exists := os_path_exists (scripted (Return None_));
  time_seconds := time_seconds (scripted (Return None_));
  gettempdir := "/tmp"
|}.

(** The same world with an assistant whose analysis is interrupted. *)
Definition interrupted : Env Z := {|
  transcribe_audio := fun _ _ w => (Return (Str "Headache for two days."), w);
  analyze_text := fun _ _ w => (Raise (Outside "KeyboardInterrupt" ""), w);
  generate_emr_content := generate_emr_content (scripted (Return None_));
  generate_prescription := generate_prescription (scripted (Return None_));
  text_to_speech_with_gtts := text_to_speech_with_gtts (scripted (Return None_));
  os_path_exists := os_path_exists (scripted (Return None_));
  time_seconds := time_seconds (scripted (Return None_));
  gettempdir := "/tmp"
|}.

(** ** Observing a run *)

(** One of the assistant's methods raised [x] on some call. *)
Definition raised_by_stage {W} (E : Env W) (x : raised) : Prop :=
  (exists path l w w', transcribe_audio E path l w = (Raise x, w'))
  \/ (exists text l w w', analyze_text E text l w = (Raise x, w'))
  \/ (exists text l w w', generate_emr_content E text l w = (Raise x, w'))
  \/ (exists notes l w w', generate_prescription E notes l w = (Raise x, w'))
  \/ (exists text out l w w',
         text_to_speech_with_gtts E text out l w = (Raise x, w')).

(** A run returns a result, or lets through what a stage raised from
    outside [Exception]. *)
Definition returns_or_propagates {W} (E : Env W)
    (x : completion result * W * list event) : Prop :=
  (exists r w' t, x = (Return r, w', t))
  \/ (exists class_name message w' t,
         x = (Raise (Outside class_name message), w', t)
         /\ raised_by_stage E (Outside class_name message)).


Definition trace {W A} (x : completion A * W * list event) : list event := snd x.

(** An event is admissible for a language when it is no transcription
    and, if a stage, carries that language. *)
Definition later_event (language : value) (ev : event) : Prop :=
  is_transcribe ev = false
  /\ (is_stage ev = true -> stage_language ev = Some language).

Definition returned {W A} (x : completion A * W * list event) : option A :=
  match fst (fst x) with Return a => Some a | Raise _ => None end.

Definition world {W A} (x : completion A * W * list event) : W := snd (fst x).

(** A successful run synthesized speech: the notes and the explanation
    of the result are strings, and the run ended by reading the clock,
    calling the synthesis on the notes, two line feeds and the
    explanation with the audio file named after that second, and
    notifying completion. *)
Definition synthesized (dir stem : string) (r : result) (t : list event) : Prop :=
  exists (notes explanation : string) (seconds : Z) (language : value)
         (t0 : list event),
    medical_notes r = Str notes
    /\ prescription_explanation r = Str explanation
    /\ tts_output_path r = Some (audio_file dir stem seconds)
    /\ t = (t0 ++ [Time seconds;
                   TextToSpeech (Str (notes ++ newline ++ newline ++ explanation))
                                (audio_file dir stem seconds) language;
                   Info "Processing complete!"])%list.

(** The place of a stage in the pipeline. *)
Definition stage_index (ev : event) : option nat :=
  match ev with
  | Transcribe _ _ => Some 0
  | Analyze _ _ => Some 1
  | GenerateEmr _ _ => Some 2
  | GeneratePrescription _ _ => Some 3
  | TextToSpeech _ _ _ => Some 4
  | Info _ | Time _ => None
  end.

Definition stage_indices (t : list event) : list nat :=
  flat_map (fun ev => match stage_index ev with Some i => [i] | None => [] end) t.

(** What [process_audio] returns from its [except] clause. *)
Definition audio_error_result (e : exn) : result :=
  Result (Str ("Error processing audio: " ++ exn_str e)) (Str "")
         (error_document (exn_str e)) (Str "") (Str "") None.

(** ** Concrete runs *)

Definition failed_transcription : value :=
  Str "Error transcribing audio: connection timed out".

Definition headache : string := "Patient reports headache for 2 days".

(** The first run of the text handler in the scripted world. *)
Definition text_run_1 : completion result * Z * list event :=
  process_text (scripted (Return None_)) headache english 1700000000%Z.

(** A second run, on another text, from the world the first one left. *)
Definition text_run_2 : completion result * Z * list event :=
  process_text (scripted (Return None_)) "Patient reports fever since yesterday"
    english (world text_run_1).

(** The session and the studio after one recording that captured two
    chunks of two bytes: the flag is down, the path and the thread of
    the session are still stored, and the wave file is on disk. *)
Definition idle_after_session : Recorder.recording_state :=
  {| Recorder.is_recording := false;
     Recorder.audio_path := Some "/tmp/tmp0.wav";
     Recorder.frames := [];
     Recorder.recording_thread := Some 0 |}.

Definition studio_after_session : Recorder.studio :=
  {| Recorder.files := [("/tmp/tmp0.wav", 48%N); ("/tmp/tmp0.wav", 0%N)];
     Recorder.prepared := None;
     Recorder.running := None |}.

(** ** Properties of the orchestrator *)

Ltac run :=
  cbv beta iota zeta delta
    [process_audio process_text process_from_any_source generate usable
     try_except bind ret eval call gr_Info exists_ int_time].

Lemma prefix_nonempty (p s : string) :
  p <> "" -> String.prefix p s = true -> s <> "".
Proof.
  intros Hp H ->. destruct p; [congruence | discriminate].
Qed.

Lemma eqb_false_of_neq (s t : string) : s <> t -> String.eqb s t = false.
Proof. intro H. apply String.eqb_neq. exact H. Qed.

Section Orchestrator.

Context {W : Type} (E : Env W).


(** C1 (amended): when the file exists and transcription returns a
    string that starts with "Error", [process_audio] returns that string
    as the transcript, the "Transcription failed" document as the EMR
    field, empty notes, prescription and explanation, and no audio; the
    only stage invoked is the transcription. *)
Theorem process_audio_transcription_error
    (path : string) (language_tuple language : value) (s : string) (w w1 : W) :
  path <> "" ->
  os_path_exists E path w = true ->
  language_code language_tuple = Return language ->
  transcribe_audio E path language w = (Return (Str s), w1) ->
  String.prefix "Error" s = true ->
  process_audio E (Some path) language_tuple w
  = (Return (Result (Str s) (Str "") (error_document "Transcription failed")
                    (Str "") (Str "") None),
     w1,
     [Info "Processing audio... Please wait."; Info "Transcribing audio...";
      Transcribe path language])
  /\ stages [Info "Processing audio... Please wait."; Info "Transcribing audio...";
             Transcribe path language] = [Transcribe path language].
Proof.
  intros Hne Hfound Hlang Hcall Herr. split; [| reflexivity].
  assert (Hs : s <> "") by (eapply prefix_nonempty; [| exact Herr]; discriminate).
  run. rewrite (eqb_false_of_neq _ _ Hne), Hfound, Hlang. cbn [negb].
  rewrite Hcall. cbn [slice_to truthy startswith].
  rewrite (eqb_false_of_neq _ _ Hs), Herr. reflexivity.
Qed.

(** C10 (amended): when the file exists and transcription returns the
    empty string, [process_audio] returns it as the transcript, the
    "Transcription failed" document as the EMR field, empty notes,
    prescription and explanation, and no audio; the only stage invoked
    is the transcription. *)
Theorem process_audio_empty_transcription
    (path : string) (language_tuple language : value) (w w1 : W) :
  path <> "" ->
  os_path_exists E path w = true ->
  language_code language_tuple = Return language ->
  transcribe_audio E path language w = (Return (Str ""), w1) ->
  process_audio E (Some path) language_tuple w
  = (Return (Result (Str "") (Str "") (error_document "Transcription failed")
                    (Str "") (Str "") None),
     w1,
     [Info "Processing audio... Please wait."; Info "Transcribing audio...";
      Transcribe path language])
  /\ stages [Info "Processing audio... Please wait."; Info "Transcribing audio...";
             Transcribe path language] = [Transcribe path language].
Proof.
  intros Hne Hfound Hlang Hcall. split; [| reflexivity].
  run. rewrite (eqb_false_of_neq _ _ Hne), Hfound, Hlang. cbn [negb].
  rewrite Hcall. reflexivity.
Qed.

(** C3: on the empty text [process_text] returns the all-empty result
    (empty transcript, notes, prescription and explanation, the empty
    document, no audio path) without any event: no notification and no
    call of the assistant; the world is left as it was. *)
Theorem process_text_empty (language_tuple : value) (w : W) :
  process_text E "" language_tuple w
  = (Return (Result (Str "") (Str "") (Str "{}") (Str "") (Str "") None), w, []).
Proof. reflexivity. Qed.

End Orchestrator.

(** ** Strings *)

Lemma append_assoc (a b c : string) : ((a ++ b) ++ c = a ++ (b ++ c))%string.
Proof. induction a as [| x a IH]; cbn; [reflexivity | now rewrite IH]. Qed.

Lemma length_append (a b : string) :
  String.length (a ++ b) = String.length a + String.length b.
Proof. induction a as [| x a IH]; cbn; [reflexivity | now rewrite IH]. Qed.

Lemma append_inv_head (a b c : string) : (a ++ b = a ++ c)%string -> b = c.
Proof.
  induction a as [| x a IH]; cbn; intro H; [exact H |].
  injection H as H. now apply IH.
Qed.

Lemma append_inv_tail (c a b : string) : (a ++ c = b ++ c)%string -> a = b.
Proof.
  revert b. induction a as [| x a IH]; intros [| y b] H; cbn in H.
  - reflexivity.
  - apply (f_equal String.length) in H. cbn in H. rewrite length_append in H. lia.
  - apply (f_equal String.length) in H. cbn in H. rewrite length_append in H. lia.
  - injection H as -> H. f_equal. now apply IH.
Qed.

Lemma str_of_int_inj (a b : Z) : str_of_int a = str_of_int b -> a = b.
Proof.
  unfold str_of_int. intro H.
  assert (Hnn : forall z, Z.to_int z <> Decimal.Pos Decimal.Nil
                          /\ Z.to_int z <> Decimal.Neg Decimal.Nil).
  { intros [| p | p]; cbn; split; try discriminate;
      intro K; injection K as K; exact (DecimalPos.Unsigned.to_uint_nonnil p K). }
  apply (f_equal NilZero.int_of_string) in H.
  rewrite !NilZero.isi in H by apply Hnn.
  injection H as H. now apply DecimalZ.to_int_inj.
Qed.

Lemma os_path_join_inj (dir a b : string) :
  String.prefix "/" a = false -> String.prefix "/" b = false ->
  os_path_join dir a = os_path_join dir b -> a = b.
Proof.
  unfold os_path_join. intros -> ->.
  destruct (String.eqb dir ""); [trivial |].
  destruct (String.eqb _ "/"); intro H.
  - now apply append_inv_head in H.
  - apply append_inv_head in H. now apply (append_inv_head "/") in H.
Qed.

(** Two audio files of one stem have one name only at one second. *)
Lemma audio_file_inj (dir stem : string) (s1 s2 : Z) :
  (forall x, String.prefix "/" (stem ++ x) = false) ->
  audio_file dir stem s1 = audio_file dir stem s2 -> s1 = s2.
Proof.
  unfold audio_file. intros Hstem H.
  apply os_path_join_inj in H; try apply Hstem.
  apply append_inv_head, append_inv_tail in H. now apply str_of_int_inj.
Qed.

Lemma add_Str_r_inv (a : value) (y : string) (v : value) :
  add a (Str y) = Return v -> exists x, a = Str x /\ v = Str (x ++ y).
Proof.
  destruct a; cbn; intro H; try discriminate.
  injection H as <-. eauto.
Qed.

Lemma add_Str_l_inv (x : string) (b v : value) :
  add (Str x) b = Return v -> exists y, b = Str y /\ v = Str (x ++ y).
Proof.
  destruct b; cbn; intro H; try discriminate.
  injection H as <-. eauto.
Qed.

(** ** The stages after transcription *)

Section Generate.

Context {W : Type} (E : Env W).

Ltac next_call :=
  match goal with
  | |- context [analyze_text E ?a ?b ?w] =>
      destruct (analyze_text E a b w) as [[? | ?] ?]
  | |- context [generate_emr_content E ?a ?b ?w] =>
      destruct (generate_emr_content E a b w) as [[? | ?] ?]
  | |- context [generate_prescription E ?a ?b ?w] =>
      destruct (generate_prescription E a b w) as [[? | ?] ?]
  | |- context [unpack2 ?v] => destruct (unpack2 v) as [[? ?] | ?]
  | |- context [time_seconds E ?w] => destruct (time_seconds E w) as [? ?]
  | |- context [add ?a ?b] => destruct (add a b) as [? | ?] eqn:?
  | |- context [text_to_speech_with_gtts E ?a ?b ?c ?w] =>
      destruct (text_to_speech_with_gtts E a b c w) as [[? | ?] ?]
  end.

(** Whatever happens in it, [generate] transcribes nothing and hands the
    language it was given to every stage it invokes. *)
Lemma generate_events (stem : string) (text language : value) (w : W) :
  Forall (later_event language) (trace (generate E stem text language w)).
Proof.
  unfold trace. run.
  repeat (next_call; cbn [snd app]);
    repeat (constructor; [split; [reflexivity | cbn; intros; reflexivity || discriminate] |]);
    constructor.
Qed.

(** When [generate] returns, all four stages ran in order, the notes and
    the explanation are strings, and speech was synthesized from the
    notes, two line feeds and the explanation into the audio file named
    after the second just read. *)
Lemma generate_returns (stem : string) (text language : value) (w w' : W)
    (r : result) (t : list event) :
  generate E stem text language w = (Return r, w', t) ->
  exists (notes explanation : string) (seconds : Z),
    transcript r = text
    /\ medical_notes r = Str notes
    /\ prescription_explanation r = Str explanation
    /\ tts_output_path r = Some (audio_file (gettempdir E) stem seconds)
    /\ t = [Info "Generating medical notes..."; Analyze text language;
            Info "Creating EMR content..."; GenerateEmr text language;
            Info "Generating prescription...";
            GeneratePrescription (Str notes) language;
            Info "Creating audio response..."; Time seconds;
            TextToSpeech (Str (notes ++ newline ++ newline ++ explanation))
                         (audio_file (gettempdir E) stem seconds) language;
            Info "Processing complete!"].
Proof.
  run. repeat next_call; cbn [app]; intro H; try discriminate.
  injection H as <- <- <-.
  match goal with
  | H1 : add _ (Str _) = Return _ |- _ =>
      apply add_Str_r_inv in H1; destruct H1 as (notes & -> & ->)
  end.
  match goal with
  | H2 : add (Str _) _ = Return _ |- _ =>
      apply add_Str_l_inv in H2; destruct H2 as (explanation & -> & ->)
  end.
  exists notes, explanation. eexists. cbn.
  rewrite append_assoc. repeat split; reflexivity.
Qed.

Ltac next_call_eqn :=
  match goal with
  | |- context [analyze_text E ?a ?b ?w] =>
      destruct (analyze_text E a b w) as [[? | ?] ?] eqn:?
  | |- context [generate_emr_content E ?a ?b ?w] =>
      destruct (generate_emr_content E a b w) as [[? | ?] ?] eqn:?
  | |- context [generate_prescription E ?a ?b ?w] =>
      destruct (generate_prescription E a b w) as [[? | ?] ?] eqn:?
  | |- context [unpack2 ?v] => destruct (unpack2 v) as [[? ?] | ?]
  | |- context [time_seconds E ?w] => destruct (time_seconds E w) as [? ?]
  | |- context [add ?a ?b] => destruct (add a b) as [? | ?]
  | |- context [text_to_speech_with_gtts E ?a ?b ?c ?w] =>
      destruct (text_to_speech_with_gtts E a b c w) as [[? | ?] ?] eqn:?
  end.

(** What [generate] raises from outside [Exception] is what one of its
    stages raised: its own operations raise instances of [Exception]. *)
Lemma generate_raises (stem : string) (text language : value) (w w' : W)
    (class_name message : string) (t : list event) :
  generate E stem text language w = (Raise (Outside class_name message), w', t) ->
  raised_by_stage E (Outside class_name message).
Proof.
  run. repeat (next_call_eqn; cbn [app]); intro H; try discriminate;
    injection H as -> _ _; unfold raised_by_stage; eauto 12.
Qed.

End Generate.

(** ** The handlers as a whole *)

Ltac run_outer :=
  cbv beta iota zeta delta
    [process_audio process_text process_from_any_source usable
     try_except bind ret eval call gr_Info exists_ int_time].

Ltac audio_cascade E :=
  run_outer;
  repeat (match goal with
          | |- context [match ?ap with Some _ => _ | None => _ end] =>
              is_var ap; destruct ap
          | |- context [String.eqb ?p ""] => destruct (String.eqb p "") eqn:?
          | |- context [os_path_exists E ?p ?w] =>
              destruct (os_path_exists E p w) eqn:?
          | |- context [language_code ?l] => destruct (language_code l) eqn:?
          | |- context [transcribe_audio E ?p ?l ?w] =>
              destruct (transcribe_audio E p l w) as [[? | ?] ?] eqn:?
          | |- context [slice_to 100 ?v] => destruct (slice_to 100 v) eqn:?
          | |- context [truthy ?v] => destruct (truthy v) eqn:?
          | |- context [startswith ?v "Error"] =>
              destruct (startswith v "Error") as [[|] | ?] eqn:?
          | |- context [generate E ?s ?t ?l ?w] =>
              destruct (generate E s t l w) as [[[? | ?] ?] ?] eqn:?
          | |- context [match ?x with OfException _ => _ | Outside _ _ => _ end] =>
              is_var x; destruct x
          end; cbn [negb fst snd app]).

Lemma usable_is_string (v : value) :
  truthy v = true -> startswith v "Error" = Return false ->
  exists s, v = Str s /\ s <> "" /\ String.prefix "Error" s = false.
Proof.
  destruct v as [| s | l | l]; cbn; intros Ht Hs; try discriminate.
  exists s. repeat split.
  - intros ->. discriminate.
  - now injection Hs.
Qed.

Lemma synthesized_cons (dir stem : string) (r : result) (ev : event)
    (t : list event) :
  synthesized dir stem r t -> synthesized dir stem r (ev :: t).
Proof.
  intros (notes & explanation & seconds & language & t0 & Hn & He & Hp & ->).
  exists notes, explanation, seconds, language, (ev :: t0). repeat split; assumption.
Qed.

Section Whole.

Context {W : Type} (E : Env W).

Lemma generate_synthesized (stem : string) (text language : value) (w w' : W)
    (r : result) (t t0 : list event) :
  generate E stem text language w = (Return r, w', t) ->
  synthesized (gettempdir E) stem r (t0 ++ t)%list.
Proof.
  intro H. apply generate_returns in H.
  destruct H as (notes & explanation & seconds & _ & Hn & He & Hp & ->).
  exists notes, explanation, seconds, language.
  exists (t0 ++ [Info "Generating medical notes..."; Analyze text language;
                 Info "Creating EMR content..."; GenerateEmr text language;
                 Info "Generating prescription...";
                 GeneratePrescription (Str notes) language;
                 Info "Creating audio response..."])%list.
  repeat split; try assumption. rewrite <- app_assoc. reflexivity.
Qed.

(** The events of [process_text]: no transcription, and every stage
    carries the code extracted from the selection. *)
Lemma process_text_events (text_input : string) (language_tuple : value) (w : W) :
  Forall (fun ev =>
            is_transcribe ev = false
            /\ (is_stage ev = true ->
                exists language, language_code language_tuple = Return language
                                 /\ stage_language ev = Some language))
         (trace (process_text E text_input language_tuple w)).
Proof.
  unfold trace. run_outer.
  destruct (String.eqb text_input ""); [constructor |].
  destruct (language_code language_tuple) as [language | e]; cbn [snd app].
  - pose proof (generate_events E "text_notes_audio_" (Str text_input) language w) as HF.
    unfold trace in HF.
    destruct (generate E "text_notes_audio_" (Str text_input) language w)
      as [[[r | [e | c m]] w1] t1]; cbn [snd app] in *;
      try rewrite app_nil_r;
      (constructor; [split; [reflexivity | discriminate] |]);
      (eapply Forall_impl; [| exact HF]);
      intros ev [Ht Hs]; (split; [exact Ht | intro K; eauto]).
  - repeat constructor. discriminate.
Qed.

(** The events of [process_audio]: every stage carries the code
    extracted from the selection. *)
Lemma process_audio_events (audio_path : option string) (language_tuple : value)
    (w : W) :
  Forall (fun ev =>
            is_stage ev = true ->
            exists language, language_code language_tuple = Return language
                             /\ stage_language ev = Some language)
         (trace (process_audio E audio_path language_tuple w)).
Proof.
  unfold trace. run_outer.
  destruct audio_path as [path |]; [| constructor].
  destruct (String.eqb path ""); [constructor |].
  destruct (os_path_exists E path w); cbn [negb snd app];
    [| repeat constructor; discriminate].
  destruct (language_code language_tuple) as [language | e]; cbn [snd app];
    [| repeat constructor; discriminate].
  assert (Hhead : forall t : list event,
             Forall (later_event language) t ->
             Forall (fun ev => is_stage ev = true ->
                       exists l, @Return exn value language = Return l
                                 /\ stage_language ev = Some l)
                    (Info "Processing audio... Please wait."
                       :: Info "Transcribing audio..."
                       :: Transcribe path language :: t)).
  { intros t HF. repeat (constructor; [cbn; intros; eauto; discriminate |]).
    eapply Forall_impl; [| exact HF]. intros ev [_ Hs] K. eauto. }
  destruct (transcribe_audio E path language w)
    as [[transcription | [e | c m]] w1];
    cbn [snd app]; [| apply Hhead; constructor | apply Hhead; constructor].
  destruct (slice_to 100 transcription) as [shown | e]; cbn [snd app];
    [| apply Hhead; constructor].
  destruct (truthy transcription); cbn [snd app]; [| apply Hhead; constructor].
  destruct (startswith transcription "Error") as [[|] | e]; cbn [negb snd app];
    try (apply Hhead; constructor).
  pose proof (generate_events E "medical_notes_audio_" transcription language w1) as HF.
  unfold trace in HF.
  destruct (generate E "medical_notes_audio_" transcription language w1)
    as [[[r | [e | c m]] w2] t2]; cbn [snd app] in *;
    try rewrite app_nil_r; apply Hhead; exact HF.
Qed.

Ltac settle_run :=
  first [ left; do 3 eexists; reflexivity
        | right; do 4 eexists; split; [reflexivity |];
          first [ match goal with
                  | H : generate E _ _ _ _ = _ |- _ =>
                      exact (generate_raises E _ _ _ _ _ _ _ _ H)
                  end
                | unfold raised_by_stage; left; eauto ] ].

(** [process_audio] returns, unless a stage raised from outside
    [Exception]: its [except] clause takes every other exception. *)
Lemma process_audio_returns_or_propagates
    (audio_path : option string) (language_tuple : value) (w : W) :
  returns_or_propagates E (process_audio E audio_path language_tuple w).
Proof. unfold returns_or_propagates. audio_cascade E; settle_run. Qed.

Lemma process_text_returns_or_propagates
    (text_input : string) (language_tuple : value) (w : W) :
  returns_or_propagates E (process_text E text_input language_tuple w).
Proof. unfold returns_or_propagates. audio_cascade E; settle_run. Qed.

End Whole.

Section Claims.

Context {W : Type} (E : Env W).



(** C7: the processing action takes the uploaded file when there is
    one, otherwise the recorded file when there is one, and runs
    [process_audio] on it; with neither it answers "No audio available"
    without any event, leaving the world as it was. *)
Theorem process_from_any_source_choice
    (recorded_path uploaded_path : option string) (language_tuple : value) (w : W) :
  process_from_any_source E recorded_path uploaded_path language_tuple w
  = if present uploaded_path then process_audio E uploaded_path language_tuple w
    else if present recorded_path then process_audio E recorded_path language_tuple w
    else (Return (Result (Str "No audio available. Please record or upload first.")
                         (Str "") (error_document "No audio available")
                         (Str "") (Str "") None),
          w, []).
Proof.
  unfold process_from_any_source.
  destruct (present uploaded_path) eqn:Hu.
  - rewrite Hu. reflexivity.
  - destruct (present recorded_path) eqn:Hr; reflexivity.
Qed.

(** C8 (amended): a run of [process_audio] or [process_text] that
    returns an audio path has invoked the synthesis with the notes, two
    line feeds and the explanation, writing to the file
    [<tempdir>/<stem><seconds>.mp3] where [seconds] is the whole second
    the clock gave just before; the stem is "medical_notes_audio_" for
    audio and "text_notes_audio_" for text.  The names of two runs are
    distinct when their modes differ or their seconds differ. *)
Theorem speech_synthesis_target (language_tuple : value) (w : W) :
  (forall audio_path r w' t,
      process_audio E audio_path language_tuple w = (Return r, w', t) ->
      tts_output_path r <> None ->
      synthesized (gettempdir E) "medical_notes_audio_" r t)
  /\ (forall text_input r w' t,
      process_text E text_input language_tuple w = (Return r, w', t) ->
      tts_output_path r <> None ->
      synthesized (gettempdir E) "text_notes_audio_" r t)
  /\ (forall dir s1 s2,
      s1 <> s2 ->
      audio_file dir "medical_notes_audio_" s1 <> audio_file dir "medical_notes_audio_" s2
      /\ audio_file dir "text_notes_audio_" s1 <> audio_file dir "text_notes_audio_" s2)
  /\ (forall dir s1 s2,
      audio_file dir "medical_notes_audio_" s1 <> audio_file dir "text_notes_audio_" s2).
Proof.
  split; [| split; [| split]].
  - intros audio_path r w' t. audio_cascade E; intro H; try discriminate;
      injection H as <- _ <-; cbn; intro K; try (now contradiction K).
    match goal with
    | Hg : generate E _ _ _ _ = _ |- _ =>
        apply (generate_synthesized E _ _ _ _ _ _ _ []) in Hg; cbn [app] in Hg;
        repeat apply synthesized_cons; exact Hg
    end.
  - intros text_input r w' t. audio_cascade E; intro H; try discriminate;
      injection H as <- _ <-; cbn; intro K; try (now contradiction K).
    match goal with
    | Hg : generate E _ _ _ _ = _ |- _ =>
        apply (generate_synthesized E _ _ _ _ _ _ _ []) in Hg; cbn [app] in Hg;
        repeat apply synthesized_cons; exact Hg
    end.
  - intros dir s1 s2 Hs. split; intro K;
      (apply audio_file_inj in K; [contradiction | reflexivity]).
  - intros dir s1 s2. unfold audio_file. intro K.
    apply os_path_join_inj in K; [discriminate | reflexivity | reflexivity].
Qed.

(** C9 (amended): every stage invoked by one run of [process_audio] or
    [process_text] receives the same language value, namely the code
    [language_code] extracts from the selection: its first component
    when the selection is a tuple, "en" otherwise.  The selection itself
    is not handed on. *)
Theorem stages_receive_language_code
    (audio_path : option string) (text_input : string) (language_tuple : value)
    (w : W) (ev : event) :
  In ev (trace (process_audio E audio_path language_tuple w))
  \/ In ev (trace (process_text E text_input language_tuple w)) ->
  is_stage ev = true ->
  exists language : value,
    language_code language_tuple = Return language
    /\ stage_language ev = Some language.
Proof.
  intros [Hin | Hin] Hstage.
  - pose proof (process_audio_events E audio_path language_tuple w) as HF.
    rewrite Forall_forall in HF. exact (HF ev Hin Hstage).
  - pose proof (process_text_events E text_input language_tuple w) as HF.
    rewrite Forall_forall in HF. exact (proj2 (HF ev Hin) Hstage).
Qed.

End Claims.

(** ** The recorder when idle *)

(** C5 (amended): when no recording is active and the session stores no
    path of a file that exists (as before the first recording),
    [stop_recording] leaves the session as it is and returns the
    "No recording was saved." status with no file path. *)
Theorem stop_recording_idle_nothing_saved
    {W : Type} (D : Recorder.Device W) (st : Recorder.recording_state) (w : W) :
  Recorder.is_recording st = false ->
  Recorder.saved_file D st (Recorder.after_join D st w) = None ->
  Recorder.stop_recording D st w
  = ((Recorder.record_label, "No recording was saved.", None),
     st, Recorder.after_join D st w).
Proof.
  intros Hidle Hnone. unfold Recorder.stop_recording.
  assert (Hst : Recorder.set_is_recording false st = st).
  { destruct st as [b p f t]. cbn in Hidle. subst b. reflexivity. }
  rewrite Hst, Hnone. reflexivity.
Qed.

Lemma stop_recording_idle_nothing_saved_witness :
  Recorder.is_recording Recorder.initial_state = false
  /\ Recorder.saved_file (Recorder.studio_device [])
       Recorder.initial_state
       (Recorder.after_join (Recorder.studio_device [])
          Recorder.initial_state Recorder.empty_studio) = None
  /\ Recorder.stop_recording (Recorder.studio_device [])
       Recorder.initial_state Recorder.empty_studio
     = ((Recorder.record_label, "No recording was saved.", None),
        Recorder.initial_state,
        Recorder.after_join (Recorder.studio_device [])
          Recorder.initial_state Recorder.empty_studio).
Proof.
  split; [reflexivity |]. split; [reflexivity |].
  apply (stop_recording_idle_nothing_saved (Recorder.studio_device [])
           Recorder.initial_state Recorder.empty_studio); reflexivity.
Defined.

(** C5 as stated fails: after a recording was started and stopped the
    session is idle, and a further stop returns "Recording complete."
    with the path of the file recorded before. *)
Lemma stop_recording_idle_returns_old_file :
  (let '(_, st1, w1) :=
     Recorder.start_recording (Recorder.studio_device ["ab"; "cd"])
       Recorder.initial_state Recorder.empty_studio in
   Recorder.stop_recording (Recorder.studio_device ["ab"; "cd"]) st1 w1)
  = ((Recorder.record_label, "Recording complete.", Some "/tmp/tmp0.wav"),
     idle_after_session, studio_after_session)
  /\ Recorder.is_recording idle_after_session = false
  /\ Recorder.stop_recording (Recorder.studio_device ["ab"; "cd"])
       idle_after_session studio_after_session
     = ((Recorder.record_label, "Recording complete.", Some "/tmp/tmp0.wav"),
        idle_after_session, studio_after_session).
Proof. split; [reflexivity |]. split; reflexivity. Qed.

(** ** Runs with the scripted assistant *)

(** The documents the handlers build, spelled out. *)
Lemma error_document_text :
  error_document "Transcription failed"
  = Str ("{" ++ dquote ++ "error" ++ dquote ++ ": "
             ++ dquote ++ "Transcription failed" ++ dquote ++ "}")
  /\ error_document "File not found"
     = Str ("{" ++ dquote ++ "error" ++ dquote ++ ": "
                ++ dquote ++ "File not found" ++ dquote ++ "}")
  /\ error_document "No audio available"
     = Str ("{" ++ dquote ++ "error" ++ dquote ++ ": "
                ++ dquote ++ "No audio available" ++ dquote ++ "}").
Proof. split; [reflexivity |]. split; reflexivity. Qed.

(** Escapes of [json.dumps]: the quote, the backslash, the line feed,
    and characters outside ASCII (here U+00E9 and U+1F399). *)
Example json_dumps1_escapes :
  json_dumps1 "error" ("say " ++ dquote ++ "é" ++ dquote ++ "\" ++ newline ++ "🎙")
  = "{" ++ dquote ++ "error" ++ dquote ++ ": " ++ dquote
        ++ "say \" ++ dquote ++ "\u00e9\" ++ dquote ++ "\\\n\ud83c\udf99"
        ++ dquote ++ "}".
Proof. reflexivity. Qed.

(** A whole successful run of the text handler. *)
Example process_text_headache :
  text_run_1
  = (Return (Result (Str headache) (Str "Tension-type headache, 2 days.")
                    (Dict [("chief_complaint", Str "headache")])
                    (Str "Paracetamol 500 mg") (Str "One tablet every 6 hours.")
                    (Some "/tmp/text_notes_audio_1700000000.mp3")),
     1700000000%Z,
     [Info "Processing your text input... Please wait.";
      Info "Generating medical notes...";
      Analyze (Str headache) (Str "en");
      Info "Creating EMR content...";
      GenerateEmr (Str headache) (Str "en");
      Info "Generating prescription...";
      GeneratePrescription (Str "Tension-type headache, 2 days.") (Str "en");
      Info "Creating audio response...";
      Time 1700000000;
      TextToSpeech
        (Str ("Tension-type headache, 2 days." ++ newline ++ newline
                ++ "One tablet every 6 hours."))
        "/tmp/text_notes_audio_1700000000.mp3" (Str "en");
      Info "Processing complete!"]).
Proof. reflexivity. Qed.

(** A whole successful run of the audio handler. *)
Example process_audio_visit :
  returned (process_audio (scripted (Return (Str headache))) (Some "/tmp/visit.wav")
              english 1700000000%Z)
  = Some (Result (Str headache) (Str "Tension-type headache, 2 days.")
                 (Dict [("chief_complaint", Str "headache")])
                 (Str "Paracetamol 500 mg") (Str "One tablet every 6 hours.")
                 (Some "/tmp/medical_notes_audio_1700000000.mp3"))
  /\ stages (trace (process_audio (scripted (Return (Str headache)))
                      (Some "/tmp/visit.wav") english 1700000000%Z))
     = [Transcribe "/tmp/visit.wav" (Str "en");
        Analyze (Str headache) (Str "en");
        GenerateEmr (Str headache) (Str "en");
        GeneratePrescription (Str "Tension-type headache, 2 days.") (Str "en");
        TextToSpeech
          (Str ("Tension-type headache, 2 days." ++ newline ++ newline
                  ++ "One tablet every 6 hours."))
          "/tmp/medical_notes_audio_1700000000.mp3" (Str "en")].
Proof. split; reflexivity. Qed.

(** A stage that raises: the pipeline stops there and the handler
    returns the input text with the error in the notes and EMR fields. *)
Example process_text_stage_raises :
  process_text unavailable headache english 1700000000%Z
  = (Return (Result (Str headache) (Str "Error processing text: model unavailable")
                    (error_document "model unavailable") (Str "") (Str "") None),
     1700000000%Z,
     [Info "Processing your text input... Please wait.";
      Info "Generating medical notes...";
      Analyze (Str headache) (Str "en")]).
Proof. reflexivity. Qed.

(** A prescription stage that returns no pair raises in the unpacking,
    a selection that is an empty tuple in the subscript: both end in
    the handler's error result. *)
Example unpack2_and_subscript_raise :
  unpack2 (Str "abc") = Raise (ValueError "too many values to unpack (expected 2)")
  /\ unpack2 None_ = Raise (TypeError "cannot unpack non-iterable NoneType object")
  /\ returned (process_text (scripted (Return None_)) headache (Tuple [])
                 1700000000%Z)
     = Some (Result (Str headache)
                    (Str "Error processing text: tuple index out of range")
                    (error_document "tuple index out of range")
                    (Str "") (Str "") None).
Proof. repeat split. Qed.

(** What the selection gives: the code of a pair, "en" for anything that
    is no tuple, an [IndexError] for the empty tuple. *)
Lemma language_code_cases (code name : value) (s : string) :
  language_code (Tuple [code; name]) = Return code
  /\ language_code (Str s) = Return (Str "en")
  /\ language_code None_ = Return (Str "en")
  /\ language_code (Tuple []) = Raise (IndexError "tuple index out of range").
Proof. repeat split. Qed.


Lemma process_audio_transcription_error_witness :
  String.prefix "Error" "Error transcribing audio: connection timed out" = true
  /\ process_audio (scripted (Return failed_transcription)) (Some "/tmp/visit.wav")
       english 1700000000%Z
     = (Return (Result failed_transcription (Str "")
                       (error_document "Transcription failed")
                       (Str "") (Str "") None),
        1700000000%Z,
        [Info "Processing audio... Please wait."; Info "Transcribing audio...";
         Transcribe "/tmp/visit.wav" (Str "en")]).
Proof.
  split; [reflexivity |].
  apply (process_audio_transcription_error (scripted (Return failed_transcription))
           "/tmp/visit.wav" english (Str "en")
           "Error transcribing audio: connection timed out"
           1700000000%Z 1700000000%Z);
    [discriminate | reflexivity | reflexivity | reflexivity | reflexivity].
Defined.

(** C1 as stated fails: with an error-prefixed transcription of an
    existing file the EMR field is not empty, it holds the
    "Transcription failed" document. *)
Lemma transcription_error_emr_not_empty :
  os_path_exists (scripted (Return failed_transcription)) "/tmp/visit.wav"
    1700000000%Z = true
  /\ transcribe_audio (scripted (Return failed_transcription)) "/tmp/visit.wav"
       (Str "en") 1700000000%Z
     = (Return failed_transcription, 1700000000%Z)
  /\ startswith failed_transcription "Error" = Return true
  /\ returned (process_audio (scripted (Return failed_transcription))
                 (Some "/tmp/visit.wav") english 1700000000%Z)
     = Some (Result failed_transcription (Str "")
                    (error_document "Transcription failed")
                    (Str "") (Str "") None)
  /\ empty_field (error_document "Transcription failed") = false.
Proof. repeat (split; [reflexivity |]). reflexivity. Qed.

Lemma process_audio_empty_transcription_witness :
  process_audio (scripted (Return (Str ""))) (Some "/tmp/visit.wav")
    english 1700000000%Z
  = (Return (Result (Str "") (Str "") (error_document "Transcription failed")
                    (Str "") (Str "") None),
     1700000000%Z,
     [Info "Processing audio... Please wait."; Info "Transcribing audio...";
      Transcribe "/tmp/visit.wav" (Str "en")]).
Proof.
  apply (process_audio_empty_transcription (scripted (Return (Str "")))
           "/tmp/visit.wav" english (Str "en") 1700000000%Z 1700000000%Z);
    [discriminate | reflexivity | reflexivity | reflexivity].
Defined.

(** C10 as stated fails for a null transcription: the log line's
    subscript raises, and the handler returns the generic error result,
    whose transcript is not the null value and whose EMR field is not
    the "Transcription failed" document. *)
Lemma null_transcription_generic_error :
  os_path_exists (scripted (Return None_)) "/tmp/visit.wav" 1700000000%Z = true
  /\ transcribe_audio (scripted (Return None_)) "/tmp/visit.wav" (Str "en")
       1700000000%Z
     = (Return None_, 1700000000%Z)
  /\ process_audio (scripted (Return None_)) (Some "/tmp/visit.wav")
       english 1700000000%Z
     = (Return (Result
                  (Str "Error processing audio: 'NoneType' object is not subscriptable")
                  (Str "")
                  (error_document "'NoneType' object is not subscriptable")
                  (Str "") (Str "") None),
        1700000000%Z,
        [Info "Processing audio... Please wait."; Info "Transcribing audio...";
         Transcribe "/tmp/visit.wav" (Str "en")])
  /\ Str "Error processing audio: 'NoneType' object is not subscriptable" <> None_
  /\ error_document "'NoneType' object is not subscriptable"
     <> error_document "Transcription failed".
Proof.
  repeat (split; [reflexivity |]). split; [discriminate |].
  vm_compute. discriminate.
Qed.



Lemma speech_synthesis_target_witness :
  synthesized "/tmp" "text_notes_audio_"
    (Result (Str headache) (Str "Tension-type headache, 2 days.")
            (Dict [("chief_complaint", Str "headache")])
            (Str "Paracetamol 500 mg") (Str "One tablet every 6 hours.")
            (Some "/tmp/text_notes_audio_1700000000.mp3"))
    (trace text_run_1).
Proof.
  apply (proj1 (proj2 (speech_synthesis_target (scripted (Return None_)) english
                         1700000000%Z))
           headache _ 1700000000%Z);
    [reflexivity | discriminate].
Defined.

(** C8 as stated fails: two runs within one second of the clock are
    given the same audio file. *)
Lemma two_runs_share_audio_file :
  option_map tts_output_path (returned text_run_1)
  = Some (Some "/tmp/text_notes_audio_1700000000.mp3")
  /\ option_map tts_output_path (returned text_run_2)
     = Some (Some "/tmp/text_notes_audio_1700000000.mp3")
  /\ option_map transcript (returned text_run_1) = Some (Str headache)
  /\ option_map transcript (returned text_run_2)
     = Some (Str "Patient reports fever since yesterday").
Proof. repeat (split; [reflexivity |]). reflexivity. Qed.

Lemma stages_receive_language_code_witness :
  In (Analyze (Str headache) (Str "en")) (trace text_run_1)
  /\ is_stage (Analyze (Str headache) (Str "en")) = true
  /\ exists language : value,
      language_code english = Return language
      /\ stage_language (Analyze (Str headache) (Str "en")) = Some language.
Proof.
  assert (Hin : In (Analyze (Str headache) (Str "en")) (trace text_run_1))
    by (right; right; left; reflexivity).
  split; [exact Hin |]. split; [reflexivity |].
  apply (stages_receive_language_code (scripted (Return None_)) None headache
           english 1700000000%Z (Analyze (Str headache) (Str "en")));
    [right; exact Hin | reflexivity].
Defined.

(** C9 as stated fails: the stages do not receive the selection, the
    pair, but its first component. *)
Lemma stage_receives_code_not_selection :
  In (Analyze (Str headache) (Str "en")) (trace text_run_1)
  /\ stage_language (Analyze (Str headache) (Str "en")) = Some (Str "en")
  /\ Str "en" <> english.
Proof.
  split; [right; right; left; reflexivity |]. split; [reflexivity | discriminate].
Qed.

(** ** The pipeline in every run *)

Section Pipeline.

Context {W : Type} (E : Env W).

Ltac step_call :=
  match goal with
  | |- context [analyze_text E ?a ?b ?w] =>
      destruct (analyze_text E a b w) as [[? | ?] ?]
  | |- context [generate_emr_content E ?a ?b ?w] =>
      destruct (generate_emr_content E a b w) as [[? | ?] ?]
  | |- context [generate_prescription E ?a ?b ?w] =>
      destruct (generate_prescription E a b w) as [[? | ?] ?]
  | |- context [unpack2 ?v] => destruct (unpack2 v) as [[? ?] | ?]
  | |- context [time_seconds E ?w] => destruct (time_seconds E w) as [? ?]
  | |- context [add ?a ?b] => destruct (add a b) as [? | ?]
  | |- context [text_to_speech_with_gtts E ?a ?b ?c ?w] =>
      destruct (text_to_speech_with_gtts E a b c w) as [[? | ?] ?]
  end.

Ltac prefix_length :=
  solve [ exists 0; split; [lia | reflexivity]
        | exists 1; split; [lia | reflexivity]
        | exists 2; split; [lia | reflexivity]
        | exists 3; split; [lia | reflexivity]
        | exists 4; split; [lia | reflexivity] ].

Lemma stage_indices_app (t1 t2 : list event) :
  stage_indices (t1 ++ t2) = (stage_indices t1 ++ stage_indices t2)%list.
Proof. unfold stage_indices. apply flat_map_app. Qed.

Lemma generate_indices (stem : string) (text language : value) (w : W) :
  exists k, k <= 4
            /\ stage_indices (trace (generate E stem text language w)) = seq 1 k.
Proof.
  unfold trace. run.
  repeat (step_call; cbn [snd app]); cbn; prefix_length.
Qed.

(** The text and the language [generate] hands to the analysis and to
    the EMR stage are those it was given. *)
Lemma generate_text (stem : string) (text language : value) (w : W)
    (text' language' : value) :
  In (Analyze text' language') (trace (generate E stem text language w))
  \/ In (GenerateEmr text' language') (trace (generate E stem text language w)) ->
  text' = text /\ language' = language.
Proof.
  unfold trace. run.
  repeat (step_call; cbn [snd app]); cbn;
    intros [K | K];
    repeat (destruct K as [K | K];
            [try discriminate; injection K as <- <-; split; reflexivity |]);
    contradiction.
Qed.

(** [generate] notifies completion exactly when it returns. *)
Lemma generate_completion (stem : string) (text language : value) (w : W) :
  In (Info "Processing complete!") (trace (generate E stem text language w))
  <-> exists r, returned (generate E stem text language w) = Some r.
Proof.
  unfold trace, returned. run.
  repeat (step_call; cbn [fst snd app]); cbn;
    match goal with
    | |- _ <-> (exists r, Some _ = Some r) =>
        split;
        [ intros _; eexists; reflexivity
        | intros _; repeat (first [left; reflexivity | right]) ]
    | |- _ <-> (exists r, None = Some r) =>
        split;
        [ intro K; repeat (destruct K as [K | K]; [discriminate |]); contradiction
        | intros [r K]; discriminate ]
    end.
Qed.

Lemma generate_audio (stem : string) (text language : value) (w w' : W)
    (r : result) (t : list event) :
  generate E stem text language w = (Return r, w', t) ->
  tts_output_path r <> None.
Proof.
  intro H. apply generate_returns in H.
  destruct H as (? & ? & ? & _ & _ & _ & -> & _). discriminate.
Qed.

End Pipeline.

Section Runs.

Context {W : Type} (E : Env W).

(** X1: in every run, of either handler, the stages invoked are an
    initial part of the pipeline, each once and in order: transcribe,
    analyze, EMR, prescription, speech for audio; the last four for
    text. *)
Theorem stages_in_pipeline_order
    (audio_path : option string) (text_input : string) (language_tuple : value)
    (w : W) :
  (exists k, k <= 5
             /\ stage_indices (trace (process_audio E audio_path language_tuple w))
                = seq 0 k)
  /\ (exists k, k <= 4
                /\ stage_indices (trace (process_text E text_input language_tuple w))
                   = seq 1 k).
Proof.
  split; unfold trace; audio_cascade E;
    try solve [ exists 0; split; [lia | reflexivity]
              | exists 1; split; [lia | reflexivity] ];
    match goal with
    | H : generate E ?s ?x ?l ?w0 = _ |- _ =>
        destruct (generate_indices E s x l w0) as (k & Hk & Hi);
        rewrite H in Hi; unfold trace in Hi; cbn [snd] in Hi
    end;
    try rewrite app_nil_r;
    first [ exists (S k); split; [lia | exact (f_equal (cons 0) Hi)]
          | exists k; split; [lia | exact Hi] ].
Qed.

End Runs.

Section Results.

Context {W : Type} (E : Env W).

(** X2: [process_audio] hands to the analysis and to the EMR stage only
    what the transcription of the given file returned, and only when
    that is a string, not empty, that does not start with "Error". *)
Theorem later_stages_given_usable_transcript
    (audio_path : option string) (language_tuple : value) (w : W)
    (text language : value) :
  In (Analyze text language) (trace (process_audio E audio_path language_tuple w))
  \/ In (GenerateEmr text language)
        (trace (process_audio E audio_path language_tuple w)) ->
  exists (path s : string) (w1 : W),
    audio_path = Some path
    /\ transcribe_audio E path language w = (Return (Str s), w1)
    /\ text = Str s
    /\ s <> ""
    /\ String.prefix "Error" s = false.
Proof.
  unfold trace. audio_cascade E;
    try (cbn; intros [K | K];
         repeat (destruct K as [K | K]; [discriminate |]); contradiction);
    try rewrite app_nil_r;
    (intro K;
     match goal with
     | H : generate E ?st ?x ?l ?w0 = (_, _, ?t2) |- _ =>
         assert (K' : In (Analyze text language) t2
                      \/ In (GenerateEmr text language) t2)
           by (destruct K as [K | K];
               [left | right];
               repeat (destruct K as [K | K]; [discriminate |]); exact K);
         clear K;
         pose proof (generate_text E st x l w0 text language) as HG;
         rewrite H in HG; unfold trace in HG; cbn [snd] in HG;
         destruct (HG K') as [-> ->]
     end;
     match goal with
     | Ht : truthy ?v = true, Hs : startswith ?v "Error" = Return false |- _ =>
         destruct (usable_is_string v Ht Hs) as (s' & -> & Hne & Hp)
     end;
     exists s, s'; eauto 10).
Qed.

(** X3: a run of [process_audio] gives all or nothing: when it returns no
    audio path, the notes, the prescription and the explanation are
    empty strings, whatever the stages had produced before the failure,
    and the EMR field is the empty document or an error document. *)
Theorem process_audio_all_or_nothing
    (audio_path : option string) (language_tuple : value) (w w' : W)
    (r : result) (t : list event) :
  process_audio E audio_path language_tuple w = (Return r, w', t) ->
  tts_output_path r = None ->
  medical_notes r = Str ""
  /\ prescription_text r = Str ""
  /\ prescription_explanation r = Str ""
  /\ (emr_content r = Str "{}" \/ exists msg, emr_content r = error_document msg).
Proof.
  audio_cascade E; intro H; try discriminate; injection H as <- _ _; cbn; intro Hnone;
    try (repeat split; eauto; fail).
  match goal with
  | H : generate E _ _ _ _ = _ |- _ => apply generate_audio in H; contradiction
  end.
Qed.

(** X4: a run of [process_text] that returns no audio path keeps the
    input as first field and returns no prescription and no explanation;
    either the input was empty, and the notes are empty with the empty
    document, or the notes hold "Error processing text: " and the
    message that the EMR error document holds. *)
Theorem process_text_all_or_nothing
    (text_input : string) (language_tuple : value) (w w' : W)
    (r : result) (t : list event) :
  process_text E text_input language_tuple w = (Return r, w', t) ->
  tts_output_path r = None ->
  transcript r = Str text_input
  /\ prescription_text r = Str ""
  /\ prescription_explanation r = Str ""
  /\ ((text_input = "" /\ medical_notes r = Str "" /\ emr_content r = Str "{}")
      \/ exists msg,
          medical_notes r = Str ("Error processing text: " ++ msg)
          /\ emr_content r = error_document msg).
Proof.
  audio_cascade E; intro H; try discriminate; injection H as <- _ _; cbn; intro Hnone.
  - match goal with
    | H : String.eqb _ _ = true |- _ => apply String.eqb_eq in H; subst
    end.
    repeat split. left. repeat split.
  - match goal with
    | H : generate E _ _ _ _ = _ |- _ => apply generate_audio in H; contradiction
    end.
  - repeat split. right. eauto.
  - repeat split. right. eauto.
Qed.

(** X5: when a stage after the transcription was invoked and
    [process_audio] returns no audio path, its result is the one of the
    [except] clause: the first field holds "Error processing audio: "
    and the message, not the transcript. *)
Theorem process_audio_failure_after_transcription
    (audio_path : option string) (language_tuple : value) (w w' : W)
    (r : result) (t : list event) (ev : event) :
  process_audio E audio_path language_tuple w = (Return r, w', t) ->
  In ev t -> is_stage ev = true -> is_transcribe ev = false ->
  tts_output_path r = None ->
  exists e : exn, r = audio_error_result e.
Proof.
  audio_cascade E; intro H; try discriminate; injection H as <- _ <-; cbn;
    intros Hin Hstage Hnt Hnone;
    try (repeat (destruct Hin as [<- | Hin]; [discriminate |]); contradiction).
  - match goal with
    | H : generate E _ _ _ _ = _ |- _ => apply generate_audio in H; contradiction
    end.
  - eexists. reflexivity.
Qed.



End Results.

Section Success.

Context {W : Type} (E : Env W).

(** X8: a run of [process_text] that returns an audio path is exactly
    this: the opening notification, then each stage behind its own
    notification, in order.  The analysis and the EMR stage are given
    the input text, the prescription stage the notes that are returned,
    all with the code of the selection, and the result holds the input
    text, these notes and the explanation that was spoken. *)
Theorem process_text_success_run
    (text_input : string) (language_tuple : value) (w w' : W)
    (r : result) (t : list event) :
  process_text E text_input language_tuple w = (Return r, w', t) ->
  tts_output_path r <> None ->
  exists (language : value) (notes explanation : string) (seconds : Z),
    language_code language_tuple = Return language
    /\ transcript r = Str text_input
    /\ medical_notes r = Str notes
    /\ prescription_explanation r = Str explanation
    /\ tts_output_path r
       = Some (audio_file (gettempdir E) "text_notes_audio_" seconds)
    /\ t = [Info "Processing your text input... Please wait.";
            Info "Generating medical notes...";
            Analyze (Str text_input) language;
            Info "Creating EMR content...";
            GenerateEmr (Str text_input) language;
            Info "Generating prescription...";
            GeneratePrescription (Str notes) language;
            Info "Creating audio response...";
            Time seconds;
            TextToSpeech (Str (notes ++ newline ++ newline ++ explanation))
              (audio_file (gettempdir E) "text_notes_audio_" seconds) language;
            Info "Processing complete!"].
Proof.
  audio_cascade E; intro H; try discriminate; injection H as <- _ <-; cbn;
    intro Hsome; try (now contradiction Hsome).
  match goal with
  | H : generate E _ _ _ _ = _ |- _ =>
      apply generate_returns in H;
      destruct H as (notes & explanation & seconds & Ht & Hn & He & Hp & ->)
  end.
  eexists. exists notes, explanation, seconds. repeat split; eauto.
Qed.

(** X9: a run of [process_audio] that returns an audio path is exactly
    this: the two opening notifications, the transcription of the given
    file, then each stage behind its own notification, in order.  The
    transcription returned a usable string, which is the transcript of
    the result and what the analysis and the EMR stage are given. *)
Theorem process_audio_success_run
    (audio_path : option string) (language_tuple : value) (w w' : W)
    (r : result) (t : list event) :
  process_audio E audio_path language_tuple w = (Return r, w', t) ->
  tts_output_path r <> None ->
  exists (path : string) (language : value) (s : string) (w1 : W)
         (notes explanation : string) (seconds : Z),
    audio_path = Some path
    /\ os_path_exists E path w = true
    /\ language_code language_tuple = Return language
    /\ transcribe_audio E path language w = (Return (Str s), w1)
    /\ s <> "" /\ String.prefix "Error" s = false
    /\ transcript r = Str s
    /\ medical_notes r = Str notes
    /\ prescription_explanation r = Str explanation
    /\ tts_output_path r
       = Some (audio_file (gettempdir E) "medical_notes_audio_" seconds)
    /\ t = [Info "Processing audio... Please wait.";
            Info "Transcribing audio...";
            Transcribe path language;
            Info "Generating medical notes...";
            Analyze (Str s) language;
            Info "Creating EMR content...";
            GenerateEmr (Str s) language;
            Info "Generating prescription...";
            GeneratePrescription (Str notes) language;
            Info "Creating audio response...";
            Time seconds;
            TextToSpeech (Str (notes ++ newline ++ newline ++ explanation))
              (audio_file (gettempdir E) "medical_notes_audio_" seconds) language;
            Info "Processing complete!"].
Proof.
  audio_cascade E; intro H; try discriminate; injection H as <- _ <-; cbn;
    intro Hsome; try (now contradiction Hsome).
  match goal with
  | Ht : truthy ?v = true, Hs : startswith ?v "Error" = Return false |- _ =>
      destruct (usable_is_string v Ht Hs) as (s' & -> & Hne & Hp)
  end.
  match goal with
  | H : generate E _ _ _ _ = _ |- _ =>
      apply generate_returns in H;
      destruct H as (notes & explanation & seconds & Ht & Hn & He & Hpath & ->)
  end.
  eexists. eexists. exists s'. eexists. exists notes, explanation, seconds.
  repeat split; eauto.
Qed.

(** X10: a selection that is not a tuple, such as a plain string, is not
    looked at: every stage of either handler is given "en". *)
Theorem non_tuple_selection_gives_en
    (audio_path : option string) (text_input : string) (language_tuple : value)
    (w : W) (ev : event) :
  (forall items, language_tuple <> Tuple items) ->
  In ev (trace (process_audio E audio_path language_tuple w))
  \/ In ev (trace (process_text E text_input language_tuple w)) ->
  is_stage ev = true ->
  stage_language ev = Some (Str "en").
Proof.
  intros Hnt Hin Hstage.
  assert (Hcode : language_code language_tuple = Return (Str "en")).
  { destruct language_tuple as [| s | items | items]; try reflexivity.
    now contradiction (Hnt items). }
  assert (Hl : exists language,
             language_code language_tuple = Return language
             /\ stage_language ev = Some language).
  { destruct Hin as [Hin | Hin].
    - pose proof (process_audio_events E audio_path language_tuple w) as HF.
      rewrite Forall_forall in HF. exact (HF ev Hin Hstage).
    - pose proof (process_text_events E text_input language_tuple w) as HF.
      rewrite Forall_forall in HF. exact (proj2 (HF ev Hin) Hstage). }
  destruct Hl as (language & Hc & Hs). rewrite Hcode in Hc.
  injection Hc as <-. exact Hs.
Qed.

End Success.

(** ** The recorder handlers *)

Section RecorderHandlers.

Context {W : Type} (D : Recorder.Device W).

Lemma stop_recording_cases
    (st st' : Recorder.recording_state) (w w' : W)
    (label message : string) (path : option string) :
  Recorder.stop_recording D st w = ((label, message, path), st', w') ->
  st' = Recorder.set_is_recording false st
  /\ w' = Recorder.after_join D st w
  /\ label = Recorder.record_label
  /\ (forall p, path = Some p
                <-> Recorder.audio_path st = Some p
                    /\ p <> ""
                    /\ Recorder.exists_ D p w' = true
                    /\ exists n, Recorder.getsize D p w' = Return n /\ (0 < n)%N)
  /\ (message = "Recording complete." <-> path <> None).
Proof.
  unfold Recorder.stop_recording, Recorder.saved_file. cbn [Recorder.audio_path
    Recorder.set_is_recording Recorder.recording_thread].
  change (Recorder.after_join D (Recorder.set_is_recording false st) w)
    with (Recorder.after_join D st w).
  set (w1 := Recorder.after_join D st w).
  assert (Hmsg : forall e : exn,
             ("Error stopping recording: " ++ exn_str e)%string
             <> "Recording complete.") by (intros e K; discriminate).
  destruct (Recorder.audio_path st) as [p0 |] eqn:Hp;
    [destruct (String.eqb_spec p0 "") as [-> | Hempty]; cbn [negb andb];
     [| destruct (Recorder.exists_ D p0 w1) eqn:Hex;
        [destruct (Recorder.getsize D p0 w1) as [n | e] eqn:Hsize;
         [destruct (N.ltb_spec 0 n) as [Hn | Hn] |] |]] |];
    intro H; injection H as <- <- <- <- <-;
    (split; [reflexivity |]); (split; [reflexivity |]); (split; [reflexivity |]);
    split.
  - intro p. split; [discriminate |]. intros (K & Kne & _).
    injection K as <-. now contradiction Kne.
  - split; [discriminate | intro K; now contradiction K].
  - intro p. split.
    + intro K. injection K as <-. eauto 6.
    + intros (K & _). exact K.
  - split; [discriminate | reflexivity].
  - intro p. split; [discriminate |].
    intros (K & _ & _ & n' & Hn' & Hpos). injection K as <-.
    rewrite Hsize in Hn'. injection Hn' as <-. lia.
  - split; [discriminate | intro K; now contradiction K].
  - intro p. split; [discriminate |].
    intros (K & _ & _ & n' & Hn' & _). injection K as <-.
    rewrite Hsize in Hn'. discriminate.
  - split; [intro K; now contradiction (Hmsg e) | intro K; now contradiction K].
  - intro p. split; [discriminate |].
    intros (K & _ & Kex & _). injection K as <-.
    rewrite Hex in Kex. discriminate.
  - split; [discriminate | intro K; now contradiction K].
  - intro p. split; [discriminate |]. intros (K & _). discriminate.
  - split; [discriminate | intro K; now contradiction K].
Qed.

(** X11: what [stop_recording] does in every state: it lowers the flag
    and changes nothing else of the session, waits for a live worker,
    and answers under the Record label.  It returns a path exactly when
    the session stores a path, not empty, of a file that then exists
    with a size above zero, and that path is the stored one; the message
    is "Recording complete." exactly then. *)
Theorem stop_recording_outcome
    (st st' : Recorder.recording_state) (w w' : W)
    (label message : string) (path : option string) :
  Recorder.stop_recording D st w = ((label, message, path), st', w') ->
  st' = Recorder.set_is_recording false st
  /\ w' = Recorder.after_join D st w
  /\ label = Recorder.record_label
  /\ (forall p, path = Some p
                <-> Recorder.audio_path st = Some p
                    /\ p <> ""
                    /\ Recorder.exists_ D p w' = true
                    /\ exists n, Recorder.getsize D p w' = Return n /\ (0 < n)%N)
  /\ (message = "Recording complete." <-> path <> None).
Proof. apply stop_recording_cases. Qed.

End RecorderHandlers.

Section RecorderSessions.

Context {W : Type} (D : Recorder.Device W).

Lemma stop_recording_eq (st : Recorder.recording_state) (w : W) :
  exists out,
    Recorder.stop_recording D st w
    = (out, Recorder.set_is_recording false st, Recorder.after_join D st w).
Proof.
  unfold Recorder.stop_recording.
  change (Recorder.after_join D (Recorder.set_is_recording false st) w)
    with (Recorder.after_join D st w).
  destruct (Recorder.saved_file D _ _); [| eauto].
  destruct (Recorder.getsize D _ _); [| eauto].
  destruct (0 <? _)%N; eauto.
Qed.

(** X12: once the worker is gone, stopping again changes nothing and
    repeats the answer: if after a stop the thread of the session is not
    alive, a second stop returns the same outputs and leaves the same
    session and world. *)
Theorem stop_recording_idempotent
    (st st1 : Recorder.recording_state) (w w1 : W) (out : Recorder.outputs) :
  Recorder.stop_recording D st w = (out, st1, w1) ->
  (forall t, Recorder.recording_thread st = Some t ->
             Recorder.is_alive D t w1 = false) ->
  Recorder.stop_recording D st1 w1 = (out, st1, w1).
Proof.
  intros H Hdead.
  destruct (stop_recording_eq st w) as (out' & Heq).
  rewrite Heq in H. injection H as <- <- <-.
  assert (Hjoin : Recorder.after_join D st (Recorder.after_join D st w)
                  = Recorder.after_join D st w).
  { unfold Recorder.after_join at 1.
    destruct (Recorder.recording_thread st) as [t |] eqn:Ht; [| reflexivity].
    rewrite (Hdead t eq_refl). reflexivity. }
  revert Heq. unfold Recorder.stop_recording.
  change (Recorder.set_is_recording false (Recorder.set_is_recording false st))
    with (Recorder.set_is_recording false st).
  change (Recorder.after_join D (Recorder.set_is_recording false st))
    with (Recorder.after_join D st).
  rewrite Hjoin. intro Heq. exact Heq.
Qed.

Lemma start_recording_cases
    (st st' : Recorder.recording_state) (w w' : W)
    (label message : string) (path : option string) :
  Recorder.start_recording D st w = ((label, message, path), st', w') ->
  path = None
  /\ ((exists e w1,
          Recorder.NamedTemporaryFile D ".wav" w = (Raise e, w1)
          /\ st' = st /\ w' = w1
          /\ label = Recorder.record_label
          /\ message = "Error starting recording: " ++ exn_str e)
      \/ (exists p w1 t w2,
             Recorder.NamedTemporaryFile D ".wav" w = (Return p, w1)
             /\ Recorder.Thread D p w1 = (t, w2)
             /\ Recorder.is_recording st' = true
             /\ Recorder.audio_path st' = Some p
             /\ Recorder.recording_thread st' = Some t
             /\ Recorder.frames st' = Recorder.frames st
             /\ ((label = Recorder.stop_label
                  /\ message = "Recording in progress..."
                  /\ Recorder.start D t w2 = (Return tt, w'))
                 \/ (exists e,
                        label = Recorder.record_label
                        /\ message = "Error starting recording: " ++ exn_str e
                        /\ Recorder.start D t w2 = (Raise e, w'))))).
Proof.
  unfold Recorder.start_recording.
  destruct (Recorder.NamedTemporaryFile D ".wav" w) as [[p | e] w1] eqn:Htemp.
  - destruct (Recorder.Thread D p w1) as [t w2] eqn:Hthread.
    destruct (Recorder.start D t w2) as [[[] | e] w3] eqn:Hstart;
      intro H; injection H as <- <- <- <- <-;
      (split; [reflexivity |]); right; exists p, w1, t, w2;
      repeat (split; [first [reflexivity | assumption] |]);
      [left | right; exists e];
      repeat (split; [reflexivity |]); assumption.
  - intro H. injection H as <- <- <- <- <-.
    split; [reflexivity |]. left. eauto 10.
Qed.

(** X13: how [start_recording] leaves the session.  If the temporary
    file cannot be created the session is as before.  Once the file is
    created the session is marked as recording with that file's path and
    the new thread stored, whether or not the thread could be started;
    only the answer differs: the Stop label if it started, the Record
    label with the error if not.  No path is ever returned. *)
Theorem start_recording_outcome
    (st st' : Recorder.recording_state) (w w' : W)
    (label message : string) (path : option string) :
  Recorder.start_recording D st w = ((label, message, path), st', w') ->
  path = None
  /\ ((exists e w1,
          Recorder.NamedTemporaryFile D ".wav" w = (Raise e, w1)
          /\ st' = st /\ w' = w1
          /\ label = Recorder.record_label
          /\ message = "Error starting recording: " ++ exn_str e)
      \/ (exists p w1 t w2,
             Recorder.NamedTemporaryFile D ".wav" w = (Return p, w1)
             /\ Recorder.Thread D p w1 = (t, w2)
             /\ Recorder.is_recording st' = true
             /\ Recorder.audio_path st' = Some p
             /\ Recorder.recording_thread st' = Some t
             /\ Recorder.frames st' = Recorder.frames st
             /\ ((label = Recorder.stop_label
                  /\ message = "Recording in progress..."
                  /\ Recorder.start D t w2 = (Return tt, w'))
                 \/ (exists e,
                        label = Recorder.record_label
                        /\ message = "Error starting recording: " ++ exn_str e
                        /\ Recorder.start D t w2 = (Raise e, w'))))).
Proof. apply start_recording_cases. Qed.

(** X14: the path a stop returns after a start, whatever happened in
    between, is the temporary file that start created; or, when the
    creation failed, the path the session stored before. *)
Theorem stop_after_start_path
    (st st1 st2 : Recorder.recording_state) (w w1 w2 w3 : W)
    (o1 o2 : Recorder.outputs) (p : string) :
  Recorder.start_recording D st w = (o1, st1, w1) ->
  Recorder.stop_recording D st1 w2 = (o2, st2, w3) ->
  snd o2 = Some p ->
  (exists w', Recorder.NamedTemporaryFile D ".wav" w = (Return p, w'))
  \/ (exists e w', Recorder.NamedTemporaryFile D ".wav" w = (Raise e, w')
                   /\ Recorder.audio_path st = Some p).
Proof.
  intros Hstart Hstop Hp.
  destruct o1 as [[l1 m1] p1]. destruct o2 as [[l2 m2] p2]. cbn in Hp. subst p2.
  apply start_recording_cases in Hstart.
  apply stop_recording_cases in Hstop.
  destruct Hstop as (_ & _ & _ & Hpath & _).
  destruct (proj1 (Hpath p) eq_refl) as (Hstored & _).
  destruct Hstart as (_ & [(e & w' & Htemp & -> & _) | (p' & w' & t & w'' & Htemp & _ & _ & Hap & _)]).
  - right. eauto.
  - left. rewrite Hap in Hstored. injection Hstored as ->. eauto.
Qed.

(** X15: a wave file is never empty: when the session's file exists
    after the wait with the size of a wave file, whatever frames it
    holds (even none), [stop_recording] answers "Recording complete."
    with its path. *)
Theorem stop_recording_wave_file
    (st : Recorder.recording_state) (w : W) (p : string) (captured : list string) :
  Recorder.audio_path st = Some p ->
  p <> "" ->
  Recorder.exists_ D p (Recorder.after_join D st w) = true ->
  Recorder.getsize D p (Recorder.after_join D st w)
  = Return (Recorder.wave_size captured) ->
  Recorder.stop_recording D st w
  = ((Recorder.record_label, "Recording complete.", Some p),
     Recorder.set_is_recording false st, Recorder.after_join D st w).
Proof.
  intros Hp Hne Hex Hsize.
  unfold Recorder.stop_recording, Recorder.saved_file.
  change (Recorder.after_join D (Recorder.set_is_recording false st) w)
    with (Recorder.after_join D st w).
  cbn [Recorder.audio_path Recorder.set_is_recording].
  rewrite Hp, (eqb_false_of_neq _ _ Hne), Hex. cbn [negb andb].
  rewrite Hsize.
  assert (Hpos : (0 <? Recorder.wave_size captured)%N = true).
  { apply N.ltb_lt. unfold Recorder.wave_size. lia. }
  rewrite Hpos. reflexivity.
Qed.

End RecorderSessions.

(** ** The capture worker *)

Section CaptureLoop.

Variable dev : Capture.device.

(** When the loop ends normally it has read one chunk for each test
    that read the flag up, in order, and then read the flag down. *)
Lemma capture_returns (tests : list bool) (k : nat) (frames frames' : list string) :
  Capture.capture dev tests k frames = Some (Return tt, frames') ->
  exists (chunks : list string) (rest : list bool),
    frames' = (frames ++ chunks)%list
    /\ tests = (repeat true (length chunks) ++ false :: rest)%list
    /\ forall i, i < length chunks ->
                 Capture.on_read dev (k + i) = Return (nth i chunks "").
Proof.
  revert k frames. induction tests as [| b tests IH]; intros k frames; cbn.
  - discriminate.
  - destruct b.
    + destruct (Capture.on_read dev k) as [chunk | e] eqn:Hread; [| discriminate].
      intro H. apply IH in H. destruct H as (chunks & rest & -> & -> & Hreads).
      exists (chunk :: chunks), rest. repeat split.
      * now rewrite <- app_assoc.
      * intros [| i] Hi; cbn.
        -- now rewrite Nat.add_0_r.
        -- rewrite <- Nat.add_succ_comm. apply Hreads. cbn in Hi. lia.
    + intro H. injection H as <-. exists [], tests. repeat split.
      * now rewrite app_nil_r.
      * intros i Hi. cbn in Hi. lia.
Qed.

(** The loop ends as soon as a test reads the flag down, if not before
    by a failed read. *)
Lemma capture_ends (tests : list bool) (k : nat) (frames : list string) :
  In false tests -> Capture.capture dev tests k frames <> None.
Proof.
  revert k frames. induction tests as [| b tests IH]; intros k frames Hin; cbn.
  - contradiction.
  - destruct b; [| discriminate].
    destruct Hin as [Hin | Hin]; [discriminate |].
    destruct (Capture.on_read dev k); [now apply IH | discriminate].
Qed.

(** While every test reads the flag up and every read succeeds, the
    loop does not end. *)
Lemma capture_goes_on (tests : list bool) (k : nat) (frames : list string) :
  (forall b, In b tests -> b = true) ->
  (forall i, exists chunk, Capture.on_read dev i = Return chunk) ->
  Capture.capture dev tests k frames = None.
Proof.
  intros Hup Hreads. revert k frames.
  induction tests as [| b tests IH]; intros k frames; cbn; [reflexivity |].
  rewrite (Hup b (or_introl eq_refl)).
  destruct (Hreads k) as (chunk & ->).
  apply IH. intros b' Hb'. apply Hup. now right.
Qed.

Lemma length_join_chars (m : nat) (l : list string) :
  Forall (fun c => String.length c = m) l ->
  String.length (join_chars l) = m * length l.
Proof.
  induction 1 as [| c l Hc Hl IH]; [cbn; lia |].
  change (join_chars (c :: l)) with (c ++ join_chars l).
  rewrite length_append, Hc, IH. cbn [length]. lia.
Qed.

Lemma record_audio_cases
    (filename f : string) (tests : list bool)
    (st st' : Recorder.recording_state) (file : option (string * Capture.wave)) :
  Capture.record_audio dev filename tests st = Some (Return f, st', file) ->
  f = filename
  /\ (exists rest,
         tests = (repeat true (length (Recorder.frames st')) ++ false :: rest)%list)
  /\ (forall i, i < length (Recorder.frames st') ->
                Capture.on_read dev i = Return (nth i (Recorder.frames st') ""))
  /\ file = Some (filename,
                  {| Capture.nchannels := 1; Capture.sampwidth := 2;
                     Capture.framerate := 44100;
                     Capture.data := join_chars (Recorder.frames st') |})
  /\ Recorder.audio_path st' = Recorder.audio_path st
  /\ Recorder.recording_thread st' = Recorder.recording_thread st.
Proof.
  unfold Capture.record_audio.
  destruct (Capture.on_open dev); [discriminate |].
  destruct (Capture.capture dev tests 0 []) as [[[[] | e] frames] |] eqn:Hloop;
    try discriminate.
  destruct (Capture.on_close dev); [discriminate |].
  destruct (Capture.on_write dev); [discriminate |].
  intro H. injection H as <- <- <-. cbn.
  apply capture_returns in Hloop.
  destruct Hloop as (chunks & rest & -> & -> & Hreads). cbn.
  repeat split; eauto.
Qed.

(** X16: when [record_audio] returns, it returns the file name it was
    given; it read one chunk for each test that read the flag up, in
    order, until a test read it down; these chunks are the frames of the
    dictionary, and the file it wrote is a mono, 16-bit, 44100 Hz wave
    file holding exactly them, joined.  The path and the thread of the
    session are untouched. *)
Theorem record_audio_returns
    (filename f : string) (tests : list bool)
    (st st' : Recorder.recording_state) (file : option (string * Capture.wave)) :
  Capture.record_audio dev filename tests st = Some (Return f, st', file) ->
  f = filename
  /\ (exists rest,
         tests = (repeat true (length (Recorder.frames st')) ++ false :: rest)%list)
  /\ (forall i, i < length (Recorder.frames st') ->
                Capture.on_read dev i = Return (nth i (Recorder.frames st') ""))
  /\ file = Some (filename,
                  {| Capture.nchannels := 1; Capture.sampwidth := 2;
                     Capture.framerate := 44100;
                     Capture.data := join_chars (Recorder.frames st') |})
  /\ Recorder.audio_path st' = Recorder.audio_path st
  /\ Recorder.recording_thread st' = Recorder.recording_thread st.
Proof. apply record_audio_cases. Qed.


(** X18: the worker ends only on the flag: once a test reads the flag
    down [record_audio] ends, by returning or raising; while every test
    reads it up and the device opens and delivers, it does not end. *)
Theorem record_audio_ends_on_flag
    (filename : string) (tests : list bool) (st : Recorder.recording_state) :
  (In false tests -> Capture.record_audio dev filename tests st <> None)
  /\ ((forall b, In b tests -> b = true) ->
      Capture.on_open dev = None ->
      (forall i, exists chunk, Capture.on_read dev i = Return chunk) ->
      Capture.record_audio dev filename tests st = None).
Proof.
  unfold Capture.record_audio. split.
  - intro Hin. destruct (Capture.on_open dev); [discriminate |].
    pose proof (capture_ends tests 0 [] Hin) as Hends.
    destruct (Capture.capture dev tests 0 []) as [[[[] | e] frames] |];
      [| discriminate | now contradiction Hends].
    destruct (Capture.on_close dev); [discriminate |].
    destruct (Capture.on_write dev); discriminate.
  - intros Hup -> Hreads. now rewrite (capture_goes_on tests 0 [] Hup Hreads).
Qed.

(** X19: when every read delivers [CHUNK] frames of [CHANNELS] samples
    of [sample_size] bytes, the data of the file [record_audio] wrote
    has that many bytes for each chunk captured, and the file, with its
    header, the size [wave_size] of these frames, which is not zero. *)
Theorem record_audio_file_size
    (filename f : string) (tests : list bool)
    (st st' : Recorder.recording_state) (wv : Capture.wave) :
  (forall i chunk, Capture.on_read dev i = Return chunk ->
                   String.length chunk
                   = N.to_nat (Capture.CHUNK * Capture.CHANNELS * Capture.sample_size)) ->
  Capture.record_audio dev filename tests st = Some (Return f, st', Some (f, wv)) ->
  String.length (Capture.data wv)
  = N.to_nat (Capture.CHUNK * Capture.CHANNELS * Capture.sample_size)
    * length (Recorder.frames st')
  /\ Recorder.wave_size (Recorder.frames st')
     = (44 + Capture.CHUNK * Capture.CHANNELS * Capture.sample_size
             * N.of_nat (length (Recorder.frames st')))%N
  /\ (0 < Recorder.wave_size (Recorder.frames st'))%N.
Proof.
  intros Hsize Hrun.
  apply record_audio_cases in Hrun.
  destruct Hrun as (_ & _ & Hreads & Hfile & _).
  injection Hfile as _ ->. cbn [Capture.data].
  assert (Hall : Forall (fun c => String.length c
                   = N.to_nat (Capture.CHUNK * Capture.CHANNELS * Capture.sample_size))
                        (Recorder.frames st')).
  { apply Forall_forall. intros c Hc.
    destruct (In_nth _ _ "" Hc) as (i & Hi & <-).
    apply (Hsize i). now apply Hreads. }
  apply length_join_chars in Hall.
  unfold Recorder.wave_size. rewrite Hall. repeat split; lia.
Qed.

End CaptureLoop.

(** ** Instances of the properties above *)

Lemma later_stages_given_usable_transcript_witness :
  exists (path s : string) (w1 : Z),
    Some "/tmp/visit.wav" = Some path
    /\ transcribe_audio (scripted (Return (Str headache))) path (Str "en")
         1700000000%Z = (Return (Str s), w1)
    /\ Str headache = Str s
    /\ s <> ""
    /\ String.prefix "Error" s = false.
Proof.
  apply (later_stages_given_usable_transcript (scripted (Return (Str headache)))
           (Some "/tmp/visit.wav") english 1700000000%Z (Str headache) (Str "en")).
  left. do 4 right. left. reflexivity.
Defined.

Lemma process_audio_all_or_nothing_witness :
  exists r : result,
    returned (process_audio unavailable (Some "/tmp/visit.wav") english 1700000000%Z)
    = Some r
    /\ medical_notes r = Str ""
    /\ prescription_text r = Str ""
    /\ prescription_explanation r = Str ""
    /\ (emr_content r = Str "{}" \/ exists msg, emr_content r = error_document msg).
Proof.
  eexists. split; [reflexivity |].
  eapply (process_audio_all_or_nothing unavailable (Some "/tmp/visit.wav") english
            1700000000%Z);
    reflexivity.
Defined.

Lemma process_text_all_or_nothing_witness :
  exists r : result,
    returned (process_text unavailable headache english 1700000000%Z) = Some r
    /\ transcript r = Str headache
    /\ prescription_text r = Str ""
    /\ prescription_explanation r = Str ""
    /\ ((headache = "" /\ medical_notes r = Str "" /\ emr_content r = Str "{}")
        \/ exists msg,
            medical_notes r = Str ("Error processing text: " ++ msg)
            /\ emr_content r = error_document msg).
Proof.
  eexists. split; [reflexivity |].
  eapply (process_text_all_or_nothing unavailable headache english 1700000000%Z);
    reflexivity.
Defined.

Lemma process_audio_failure_after_transcription_witness :
  exists e : exn,
    Result (Str "Error processing audio: model unavailable") (Str "")
           (error_document "model unavailable") (Str "") (Str "") None
    = audio_error_result e.
Proof.
  eapply (process_audio_failure_after_transcription unavailable
            (Some "/tmp/visit.wav") english 1700000000%Z _ _ _
            (Analyze (Str "Headache for two days.") (Str "en")));
    [reflexivity | do 4 right; left; reflexivity
     | reflexivity | reflexivity | reflexivity].
Defined.


Lemma process_text_success_run_witness :
  exists (language : value) (notes explanation : string) (seconds : Z),
    language_code english = Return language
    /\ Str headache = Str headache
    /\ Str "Tension-type headache, 2 days." = Str notes
    /\ Str "One tablet every 6 hours." = Str explanation
    /\ Some "/tmp/text_notes_audio_1700000000.mp3"
       = Some (audio_file "/tmp" "text_notes_audio_" seconds)
    /\ trace text_run_1
       = [Info "Processing your text input... Please wait.";
          Info "Generating medical notes...";
          Analyze (Str headache) language;
          Info "Creating EMR content...";
          GenerateEmr (Str headache) language;
          Info "Generating prescription...";
          GeneratePrescription (Str notes) language;
          Info "Creating audio response...";
          Time seconds;
          TextToSpeech (Str (notes ++ newline ++ newline ++ explanation))
            (audio_file "/tmp" "text_notes_audio_" seconds) language;
          Info "Processing complete!"].
Proof.
  eapply (process_text_success_run (scripted (Return None_)) headache english
            1700000000%Z 1700000000%Z
            (Result (Str headache) (Str "Tension-type headache, 2 days.")
                    (Dict [("chief_complaint", Str "headache")])
                    (Str "Paracetamol 500 mg") (Str "One tablet every 6 hours.")
                    (Some "/tmp/text_notes_audio_1700000000.mp3")));
    [reflexivity | discriminate].
Defined.

Lemma process_audio_success_run_witness :
  exists (r : result) (w' : Z) (t : list event),
    process_audio (scripted (Return (Str headache))) (Some "/tmp/visit.wav")
      english 1700000000%Z = (Return r, w', t)
    /\ exists (path : string) (language : value) (s : string) (w1 : Z)
              (notes explanation : string) (seconds : Z),
        Some "/tmp/visit.wav" = Some path
        /\ os_path_exists (scripted (Return (Str headache))) path 1700000000%Z = true
        /\ language_code english = Return language
        /\ transcribe_audio (scripted (Return (Str headache))) path language
             1700000000%Z = (Return (Str s), w1)
        /\ s <> "" /\ String.prefix "Error" s = false
        /\ transcript r = Str s
        /\ medical_notes r = Str notes
        /\ prescription_explanation r = Str explanation
        /\ tts_output_path r
           = Some (audio_file "/tmp" "medical_notes_audio_" seconds)
        /\ t = [Info "Processing audio... Please wait.";
                Info "Transcribing audio...";
                Transcribe path language;
                Info "Generating medical notes...";
                Analyze (Str s) language;
                Info "Creating EMR content...";
                GenerateEmr (Str s) language;
                Info "Generating prescription...";
                GeneratePrescription (Str notes) language;
                Info "Creating audio response...";
                Time seconds;
                TextToSpeech (Str (notes ++ newline ++ newline ++ explanation))
                  (audio_file "/tmp" "medical_notes_audio_" seconds) language;
                Info "Processing complete!"].
Proof.
  do 3 eexists. split; [reflexivity |].
  eapply (process_audio_success_run (scripted (Return (Str headache)))
            (Some "/tmp/visit.wav") english 1700000000%Z);
    [reflexivity | discriminate].
Defined.

Lemma non_tuple_selection_gives_en_witness :
  stage_language (Analyze (Str headache) (Str "en")) = Some (Str "en").
Proof.
  apply (non_tuple_selection_gives_en (scripted (Return None_)) None headache
           (Str "Hindi") 1700000000%Z (Analyze (Str headache) (Str "en")));
    [discriminate | right; right; right; left; reflexivity | reflexivity].
Defined.

Lemma stop_recording_outcome_witness :
  idle_after_session = Recorder.set_is_recording false idle_after_session
  /\ studio_after_session
     = Recorder.after_join (Recorder.studio_device ["ab"; "cd"])
         idle_after_session studio_after_session
  /\ Recorder.record_label = Recorder.record_label
  /\ (forall p,
         Some "/tmp/tmp0.wav" = Some p
         <-> Recorder.audio_path idle_after_session = Some p
             /\ p <> ""
             /\ Recorder.exists_ (Recorder.studio_device ["ab"; "cd"]) p
                  studio_after_session = true
             /\ exists n,
                 Recorder.getsize (Recorder.studio_device ["ab"; "cd"]) p
                   studio_after_session = Return n
                 /\ (0 < n)%N)
  /\ ("Recording complete." = "Recording complete."
      <-> Some "/tmp/tmp0.wav" <> None).
Proof.
  apply (stop_recording_outcome (Recorder.studio_device ["ab"; "cd"])
           idle_after_session idle_after_session
           studio_after_session studio_after_session).
  reflexivity.
Defined.

Lemma stop_recording_idempotent_witness :
  Recorder.stop_recording (Recorder.studio_device ["ab"; "cd"])
    idle_after_session studio_after_session
  = ((Recorder.record_label, "Recording complete.", Some "/tmp/tmp0.wav"),
     idle_after_session, studio_after_session).
Proof.
  apply (stop_recording_idempotent (Recorder.studio_device ["ab"; "cd"])
           {| Recorder.is_recording := true;
              Recorder.audio_path := Some "/tmp/tmp0.wav";
              Recorder.frames := [];
              Recorder.recording_thread := Some 0 |}
           idle_after_session
           {| Recorder.files := [("/tmp/tmp0.wav", 0%N)];
              Recorder.prepared := None;
              Recorder.running := Some "/tmp/tmp0.wav" |}
           studio_after_session);
    [reflexivity | intros t _; reflexivity].
Defined.

Lemma start_recording_outcome_witness :
  exists (label message : string) (path : option string)
         (st' : Recorder.recording_state) (w' : Recorder.studio),
    Recorder.start_recording (Recorder.studio_device []) Recorder.initial_state
      Recorder.empty_studio = ((label, message, path), st', w')
    /\ path = None
    /\ Recorder.is_recording st' = true
    /\ Recorder.audio_path st' = Some "/tmp/tmp0.wav".
Proof.
  do 5 eexists. split; [reflexivity |].
  split; [| split; reflexivity].
  eapply (proj1 (start_recording_outcome (Recorder.studio_device [])
                   Recorder.initial_state _ Recorder.empty_studio _ _ _ _ _)).
  Unshelve. all: try reflexivity.
Defined.

Lemma stop_after_start_path_witness :
  (exists w',
      Recorder.NamedTemporaryFile (Recorder.studio_device ["ab"; "cd"]) ".wav"
        Recorder.empty_studio = (Return "/tmp/tmp0.wav", w'))
  \/ (exists e w',
         Recorder.NamedTemporaryFile (Recorder.studio_device ["ab"; "cd"]) ".wav"
           Recorder.empty_studio = (Raise e, w')
         /\ Recorder.audio_path Recorder.initial_state = Some "/tmp/tmp0.wav").
Proof.
  eapply (stop_after_start_path (Recorder.studio_device ["ab"; "cd"])
            Recorder.initial_state _ _ Recorder.empty_studio _
            {| Recorder.files := [("/tmp/tmp0.wav", 0%N)];
               Recorder.prepared := None;
               Recorder.running := Some "/tmp/tmp0.wav" |});
    [reflexivity | reflexivity | reflexivity].
Defined.

Lemma stop_recording_wave_file_witness :
  Recorder.stop_recording (Recorder.studio_device ["ab"; "cd"])
    idle_after_session studio_after_session
  = ((Recorder.record_label, "Recording complete.", Some "/tmp/tmp0.wav"),
     Recorder.set_is_recording false idle_after_session,
     Recorder.after_join (Recorder.studio_device ["ab"; "cd"])
       idle_after_session studio_after_session).
Proof.
  apply (stop_recording_wave_file (Recorder.studio_device ["ab"; "cd"])
           idle_after_session studio_after_session "/tmp/tmp0.wav" ["ab"; "cd"]);
    [reflexivity | discriminate | reflexivity | reflexivity].
Defined.

Lemma record_audio_returns_witness :
  exists (st' : Recorder.recording_state) (file : option (string * Capture.wave)),
    Capture.record_audio (Capture.steady "ab") "/tmp/tmp0.wav" [true; true; false]
      Recorder.initial_state = Some (Return "/tmp/tmp0.wav", st', file)
    /\ Recorder.frames st' = ["ab"; "ab"]
    /\ file = Some ("/tmp/tmp0.wav",
                    {| Capture.nchannels := 1; Capture.sampwidth := 2;
                       Capture.framerate := 44100;
                       Capture.data := join_chars (Recorder.frames st') |}).
Proof.
  do 2 eexists. split; [reflexivity |]. split; [reflexivity |].
  eapply (record_audio_returns (Capture.steady "ab") "/tmp/tmp0.wav" _
            [true; true; false] Recorder.initial_state).
  reflexivity.
Defined.


Lemma record_audio_ends_on_flag_witness :
  Capture.record_audio (Capture.steady "ab") "/tmp/tmp0.wav" [true; false]
    Recorder.initial_state <> None
  /\ Capture.record_audio (Capture.steady "ab") "/tmp/tmp0.wav" [true; true]
       Recorder.initial_state = None.
Proof.
  split.
  - apply (proj1 (record_audio_ends_on_flag (Capture.steady "ab") "/tmp/tmp0.wav"
                    [true; false] Recorder.initial_state)).
    right. left. reflexivity.
  - apply (proj2 (record_audio_ends_on_flag (Capture.steady "ab") "/tmp/tmp0.wav"
                    [true; true] Recorder.initial_state)).
    + intros b [<- | [<- | []]]; reflexivity.
    + reflexivity.
    + intro i. eexists. reflexivity.
Defined.

Lemma record_audio_file_size_witness :
  exists (st' : Recorder.recording_state) (wv : Capture.wave),
    Capture.record_audio (Capture.steady Capture.silence) "/tmp/tmp0.wav"
      [true; true; true; false] Recorder.initial_state
    = Some (Return "/tmp/tmp0.wav", st', Some ("/tmp/tmp0.wav", wv))
    /\ length (Recorder.frames st') = 3
    /\ String.length (Capture.data wv)
       = N.to_nat (Capture.CHUNK * Capture.CHANNELS * Capture.sample_size)
         * length (Recorder.frames st')
    /\ Recorder.wave_size (Recorder.frames st')
       = (44 + Capture.CHUNK * Capture.CHANNELS * Capture.sample_size
               * N.of_nat (length (Recorder.frames st')))%N
    /\ (0 < Recorder.wave_size (Recorder.frames st'))%N.
Proof.
  do 2 eexists. split; [reflexivity |]. split; [reflexivity |].
  eapply (record_audio_file_size (Capture.steady Capture.silence) "/tmp/tmp0.wav"
            "/tmp/tmp0.wav" [true; true; true; false] Recorder.initial_state).
  - intros i chunk H. injection H as <-. reflexivity.
  - reflexivity.
Defined.
